(** * ReadAPI: the cart and order engine

    A shallow embedding of the bookstore back end's cart, order and
    catalogue routes ([routes/cart.routes.js], [routes/order.routes.js],
    [routes/book.routes.js]) together with the Mongoose schemas they rely
    on ([models/cart.model.js], [models/order.model.js],
    [models/book.model.js]), and of the saved-book, review and
    user-deletion routes.

    Modelling conventions.
    - A JavaScript [Number] is embedded twice.  In the main development
      it is an exact integer of [Z]; this is what the engine's doubles do
      as long as every value is an integer of magnitude at most 2^53
      (amounts in minor units), and it serves the statements that do not
      hang on rounding: which documents are read and written, which line
      changes, which answer is given.  Module [Double] embeds the four
      mutating cart routes over the kernel's binary64 floats; what is
      said about the value of a stored total is said there.
    - A string is the string of the bytes of its UTF-8 encoding.
    - An [ObjectId] is an [N]; identifiers minted by Mongoose are taken
      fresh with respect to the documents they must differ from.  An
      identifier freed by a delete can be minted again here, which
      Mongoose never does; nothing proved below relies on such a reuse.
    - The collections are finite maps from the key of a document to its
      other fields.  Orders, books and users are keyed by their [_id].
      The [unique] index on [cartSchema.user] makes the owning user the
      key of the cart collection, so [Cart.findOne({ user })] and the
      re-read [Cart.findById(cart._id)] are both a lookup at the user.
    - A route handler is a computation in a small state-and-exception
      monad over the database; [return res.status(..).json(..)] leaves the
      handler early, a rejected [save()] or a [TypeError] is thrown and
      turned into a response by the handler's [catch] block.
    - [doc.save()] runs the validators declared in the schema, then the
      [pre('save')] hooks, then writes.
    - Timestamps, [publishDate], [categories] and [paymentDetails] are
      left out: no cart or order code reads them. *)

From Stdlib Require Import ZArith String Ascii Lia.
From Stdlib Require Import QArith.
From Corelib Require Import PrimFloat SpecFloat FloatOps.
From stdpp Require Import gmap strings list fin_maps.

Local Open Scope string_scope.
Local Open Scope Z_scope.
Local Open Scope list_scope.

Abbreviation ObjectId := N.

(** ** Documents *)

(** [models/book.model.js], [bookSchema]. *)
Module Book.
Record t := mk {
  title : string;
  author : string;
  description : string;
  coverImage : option string;
  price : Z
}.
End Book.

(** [models/user.model.js]: the only field a modelled route reads. *)
Module User.
Record t := mk { isAdmin : bool }.
End User.

(** [models/cart.model.js], [cartItemSchema]. *)
Module CartItem.
Record t := mk {
  _id : ObjectId;
  book : ObjectId;
  quantity : Z;
  price : Z
}.
End CartItem.

(** [models/cart.model.js], [cartSchema]; the [user] is the key. *)
Module Cart.
Record t := mk {
  items : list CartItem.t;
  totalAmount : Z
}.
End Cart.

(** [models/order.model.js], [addressSchema]; a field that was never set
    is [None]. *)
Module Address.
Record t := mk {
  street : option string;
  city : option string;
  state : option string;
  zipCode : option string;
  country : option string
}.
End Address.

(** [models/order.model.js], [orderItemSchema]. *)
Module OrderItem.
Record t := mk {
  book : ObjectId;
  quantity : Z;
  price : Z
}.
End OrderItem.

(** [models/order.model.js], [orderSchema]; the [_id] is the key. *)
Module Order.
Record t := mk {
  user : ObjectId;
  items : list OrderItem.t;
  totalAmount : Z;
  shippingAddress : option Address.t;
  paymentMethod : option string;
  status : string;
  trackingNumber : string
}.
End Order.

(** The database: one finite map per collection. *)
Record DB := mkDB {
  users : gmap ObjectId User.t;
  books : gmap ObjectId Book.t;
  carts : gmap ObjectId Cart.t;
  orders : gmap ObjectId Order.t
}.

Definition emptyDB : DB := mkDB ∅ ∅ ∅ ∅.

(** ** Responses *)

Inductive Exn :=
| ValidationError
| TypeError.

(** The [select] lists of the two [populate] calls. *)
Record BookCard := mkBookCard {
  card_id : ObjectId;
  card_title : string;
  card_author : string;
  card_coverImage : option string;
  card_price : Z
}.

Record BookBrief := mkBookBrief {
  brief_id : ObjectId;
  brief_title : string;
  brief_price : Z
}.

Inductive Body :=
| JMessage (message : string)
| JError (message : string) (error : Exn)
| JCart (cart : Cart.t)
| JCartPopulated (cart : option (Cart.t * list (option BookCard)))
| JCleared (message : string) (cart : Cart.t)
| JOrder (id : ObjectId) (order : Order.t)
| JOrderPopulated (id : ObjectId) (order : Order.t)
    (populated : list (option BookCard))
| JBook (book : ObjectId * Book.t)
| JDeleted (message : string) (id : ObjectId) (title : string).

Record Response := mkResponse { code : Z; body : Body }.

(** ** The handler monad *)

Inductive outcome (A : Type) :=
| Ok (a : A)
| Return (r : Response)
| Throw (e : Exn).
Arguments Ok {A} a.
Arguments Return {A} r.
Arguments Throw {A} e.

Definition M (A : Type) : Type := DB → DB * outcome A.

Global Instance M_ret : MRet M := λ A a db, (db, Ok a).

Global Instance M_bind : MBind M := λ A B f m db,
  match m db with
  | (db', Ok a) => f a db'
  | (db', Return r) => (db', Return r)
  | (db', Throw e) => (db', Throw e)
  end.

Definition reply {A} (r : Response) : M A := λ db, (db, Return r).
Definition throw {A} (e : Exn) : M A := λ db, (db, Throw e).
Definition liftExn {A} (x : Exn + A) : M A :=
  match x with inl e => throw e | inr a => mret a end.

(** [try { body } catch (error) { handle error }]. *)
Definition try_catch (body : M Response) (handle : Exn → Response)
    (db : DB) : DB * Response :=
  match body db with
  | (db', Ok r) => (db', r)
  | (db', Return r) => (db', r)
  | (db', Throw e) => (db', handle e)
  end.

(** ** JavaScript helpers *)

(** Truthiness of a request field that is a number or absent. *)
Definition truthy_number (x : option Z) : bool :=
  match x with Some n => negb (n =? 0) | None => false end.

(** Truthiness of a request field that is a string or absent. *)
Definition truthy_string (x : option string) : bool :=
  match x with Some s => negb (String.eqb s "") | None => false end.

(** [x < n] where [x] may be [undefined]: the comparison is then false. *)
Definition js_lt (x : option Z) (n : Z) : bool :=
  match x with Some a => a <? n | None => false end.

(** [Array.prototype.findIndex]: the first index whose element satisfies
    the predicate, [-1] when there is none. *)
Fixpoint findIndex_from {A} (i : Z) (p : A → bool) (l : list A) : Z :=
  match l with
  | [] => -1
  | x :: l' => if p x then i else findIndex_from (i + 1) p l'
  end.

Definition findIndex {A} (p : A → bool) (l : list A) : Z :=
  findIndex_from 0 p l.

(** [Array.prototype.includes] on strings. *)
Definition includes (l : list string) (s : string) : bool :=
  existsb (String.eqb s) l.

(** [String.prototype.trim].  A JavaScript string is embedded as the
    string of the bytes of its UTF-8 encoding.  What [trim] removes at
    both ends are the white space and line terminator code points of
    ECMAScript: U+0009 to U+000D and U+0020 (one byte), U+00A0 (two
    bytes, C2 A0), and U+1680, U+2000 to U+200A, U+2028, U+2029, U+202F,
    U+205F, U+3000 and U+FEFF (three bytes). *)
Definition is_space (a : ascii) : bool :=
  let n := nat_of_ascii a in
  ((9 <=? n)%nat && (n <=? 13)%nat) || (n =? 32)%nat.

Definition is_space2 (a b : ascii) : bool :=
  (nat_of_ascii a =? 194)%nat && (nat_of_ascii b =? 160)%nat.

Definition is_space3 (a b c : ascii) : bool :=
  let x := nat_of_ascii a in
  let y := nat_of_ascii b in
  let z := nat_of_ascii c in
  ((x =? 225) && (y =? 154) && (z =? 128)
   || (x =? 226) && (y =? 128)
      && (((128 <=? z) && (z <=? 138)) || (z =? 168) || (z =? 169) || (z =? 175))
   || (x =? 226) && (y =? 129) && (z =? 159)
   || (x =? 227) && (y =? 128) && (z =? 128)
   || (x =? 239) && (y =? 187) && (z =? 191))%nat.

Fixpoint trimStart (s : string) : string :=
  match s with
  | String a s1 =>
      if is_space a then trimStart s1
      else
        match s1 with
        | String b s2 =>
            if is_space2 a b then trimStart s2
            else
              match s2 with
              | String c s3 => if is_space3 a b c then trimStart s3 else s
              | EmptyString => s
              end
        | EmptyString => s
        end
  | EmptyString => EmptyString
  end.

(** The string consists of white space only. *)
Definition blank (s : string) : bool :=
  String.eqb (trimStart s) EmptyString.

(** The string up to the point from which only white space follows. *)
Fixpoint trimEnd (s : string) : string :=
  match s with
  | String a s' => if blank s then EmptyString else String a (trimEnd s')
  | EmptyString => EmptyString
  end.

Definition trim (s : string) : string := trimEnd (trimStart s).

(** The string made of one no-break space, U+00A0: the bytes C2 A0. *)
Definition noBreakSpace : string :=
  String (ascii_of_nat 194) (String (ascii_of_nat 160) EmptyString).

(** ** Schema validation *)

(** [required: true] on a [String] path: present and not empty. *)
Definition required_string (x : option string) : bool := truthy_string x.

(** [cartItemSchema]: [quantity] has [min: 1]; [book] and [price] are
    required and always present in a [CartItem.t]. *)
Definition validateCartItem (item : CartItem.t) : bool :=
  1 <=? CartItem.quantity item.

Definition validateCart (cart : Cart.t) : bool :=
  forallb validateCartItem (Cart.items cart).

(** [orderItemSchema]: [quantity] has [min: 1]. *)
Definition validateOrderItem (item : OrderItem.t) : bool :=
  1 <=? OrderItem.quantity item.

(** [addressSchema]: every field is required. *)
Definition validateAddress (a : Address.t) : bool :=
  required_string (Address.street a) && required_string (Address.city a)
  && required_string (Address.state a) && required_string (Address.zipCode a)
  && required_string (Address.country a).

Definition paymentMethods : list string := ["credit_card"; "paypal"; "stripe"].

Definition orderStatuses : list string :=
  ["pending"; "processing"; "shipped"; "delivered"; "cancelled"].

(** [orderSchema]: the item and address sub-documents, the required
    [paymentMethod] with its [enum], and the [enum] of [status]. *)
Definition validateOrder (order : Order.t) : bool :=
  forallb validateOrderItem (Order.items order)
  && match Order.shippingAddress order with
     | Some a => validateAddress a
     | None => true
     end
  && match Order.paymentMethod order with
     | Some m => includes paymentMethods m
     | None => false
     end
  && includes orderStatuses (Order.status order).

(** [bookSchema]: [title] and [author] are trimmed and required,
    [description] is required, [price] is required with [min: 0]. *)
Definition castBook (title author description coverImage : option string)
    (price : option Z) : Exn + Book.t :=
  match title, author, description, price with
  | Some t, Some a, Some d, Some p =>
      if required_string (Some (trim t)) && required_string (Some (trim a))
         && required_string (Some d) && (0 <=? p)
      then inr (Book.mk (trim t) (trim a) d coverImage p)
      else inl ValidationError
  | _, _, _, _ => inl ValidationError
  end.

(** ** Collection access *)

Definition set_books (db : DB) (bs : gmap ObjectId Book.t) : DB :=
  mkDB (users db) bs (carts db) (orders db).

Definition set_carts (db : DB) (cs : gmap ObjectId Cart.t) : DB :=
  mkDB (users db) (books db) cs (orders db).

Definition set_orders (db : DB) (os : gmap ObjectId Order.t) : DB :=
  mkDB (users db) (books db) (carts db) os.

Definition Book_findById (id : ObjectId) : M (option Book.t) :=
  λ db, (db, Ok (books db !! id)).

Definition Book_save (id : ObjectId) (b : Book.t) : M (ObjectId * Book.t) :=
  λ db, (set_books db (<[id := b]> (books db)), Ok (id, b)).

Definition Book_deleteOne (id : ObjectId) : M unit :=
  λ db, (set_books db (delete id (books db)), Ok ()).

Definition Book_newId : M ObjectId :=
  λ db, (db, Ok (fresh (dom (books db)))).

Definition Cart_findOne (user : ObjectId) : M (option Cart.t) :=
  λ db, (db, Ok (carts db !! user)).

(** The reduction every cart route and the [pre('save')] hook share:
    [items.reduce((total, item) => total + item.price * item.quantity, 0)]. *)
Definition reduceTotal (items : list CartItem.t) : Z :=
  fold_left (λ total item, total + CartItem.price item * CartItem.quantity item)
    items 0.

(** [cartSchema.pre('save')]. *)
Definition pre_save (cart : Cart.t) : Cart.t :=
  Cart.mk (Cart.items cart) (reduceTotal (Cart.items cart)).

(** [cart.save()]: validate, run the hook, write; the saved document is
    returned. *)
Definition Cart_save (user : ObjectId) (cart : Cart.t) : M Cart.t :=
  λ db,
    if validateCart cart then
      let cart' := pre_save cart in
      (set_carts db (<[user := cart']> (carts db)), Ok cart')
    else (db, Throw ValidationError).

(** A book as Mongoose hands it out when it loads the stored document: a
    stored document that lacks [coverImage] (one written by
    [PUT /api/books/:id] without it) gets the schema default ['']. *)
Definition loaded (b : Book.t) : Book.t :=
  Book.mk (Book.title b) (Book.author b) (Book.description b)
    (Some (default "" (Book.coverImage b))) (Book.price b).

Definition card (id : ObjectId) (b : Book.t) : BookCard :=
  mkBookCard id (Book.title b) (Book.author b)
    (Book.coverImage (loaded b)) (Book.price b).

Definition brief (id : ObjectId) (b : Book.t) : BookBrief :=
  mkBookBrief id (Book.title b) (Book.price b).

(** [populate({ path: 'items.book', select })]: each reference is
    replaced by the selected fields of the book, or by [null] when the
    book is no longer in the catalogue. *)
Definition populate {V} (select : ObjectId → Book.t → V) (refs : list ObjectId)
    : M (list (option V)) :=
  λ db, (db, Ok ((λ id, select id <$> books db !! id) <$> refs)).

(** [Cart.findOne({ user }).populate(..)]: the document together with the
    populated value of each item's [book]. *)
Definition Cart_findPopulated {V} (select : ObjectId → Book.t → V)
    (user : ObjectId) : M (option (Cart.t * list (option V))) :=
  cart ← Cart_findOne user;
  match cart with
  | None => mret None
  | Some c =>
      bs ← populate select (CartItem.book <$> Cart.items c);
      mret (Some (c, bs))
  end.

Definition Order_findById (id : ObjectId) : M (option Order.t) :=
  λ db, (db, Ok (orders db !! id)).

(** [Order.findOne({ _id, user })]. *)
Definition Order_findOne (id user : ObjectId) : M (option Order.t) :=
  λ db, (db, Ok (o ← orders db !! id;
                 if N.eqb (Order.user o) user then Some o else None)).

Definition Order_newId : M ObjectId :=
  λ db, (db, Ok (fresh (dom (orders db)))).

(** [order.save()]. *)
Definition Order_save (id : ObjectId) (order : Order.t) : M Order.t :=
  λ db,
    if validateOrder order then
      (set_orders db (<[id := order]> (orders db)), Ok order)
    else (db, Throw ValidationError).

(** ** Cart routes ([routes/cart.routes.js]) *)

(** [GET /api/cart]. *)
Definition get_cart (uid : ObjectId) : DB → DB * Response :=
  try_catch
    (cart ← Cart_findPopulated card uid;
     match cart with
     | Some c => mret (mkResponse 200 (JCartPopulated (Some c)))
     | None =>
         cart ← Cart_save uid (Cart.mk [] 0);
         mret (mkResponse 200 (JCart cart))
     end)
    (λ error, mkResponse 500 (JError "Error retrieving cart" error)).

(** The identifier Mongoose gives a pushed sub-document. *)
Definition newItemId (items : list CartItem.t) : ObjectId :=
  fresh (list_to_set (CartItem._id <$> items) : gset ObjectId).

(** [POST /api/cart/add], from the look-up of the existing item to the
    total: what the handler does to the cart document before saving it. *)
Definition addItem (cart : Cart.t) (bookId : ObjectId) (quantity : Z)
    (book : Book.t) : Cart.t :=
  let existingItemIndex :=
    findIndex (λ item, N.eqb (CartItem.book item) bookId) (Cart.items cart) in
  let items :=
    if 0 <=? existingItemIndex then
      alter (λ item, CartItem.mk (CartItem._id item) (CartItem.book item)
                       (CartItem.quantity item + quantity) (CartItem.price item))
        (Z.to_nat existingItemIndex) (Cart.items cart)
    else
      Cart.items cart
        ++ [CartItem.mk (newItemId (Cart.items cart)) bookId quantity
              (Book.price book)] in
  Cart.mk items (reduceTotal items).

(** [POST /api/cart/add]; [quantity] defaults to 1 when the body has
    none. *)
Definition post_cart_add (uid bookId : ObjectId) (quantity : option Z)
    : DB → DB * Response :=
  try_catch
    (let quantity := default 1 quantity in
     book ← Book_findById bookId;
     match book with
     | None => reply (mkResponse 404 (JMessage "Book not found"))
     | Some book =>
         cart ← Cart_findOne uid;
         let cart := default (Cart.mk [] 0) cart in
         cart ← Cart_save uid (addItem cart bookId quantity book);
         updatedCart ← Cart_findPopulated card uid;
         mret (mkResponse 200 (JCartPopulated updatedCart))
     end)
    (λ error, mkResponse 500 (JError "Error adding to cart" error)).

(** [PUT /api/cart/update/:itemId], the assignment and the total. *)
Definition updateItem (cart : Cart.t) (itemIndex : Z) (quantity : Z) : Cart.t :=
  let items :=
    alter (λ item, CartItem.mk (CartItem._id item) (CartItem.book item)
                     quantity (CartItem.price item))
      (Z.to_nat itemIndex) (Cart.items cart) in
  Cart.mk items (reduceTotal items).

(** [PUT /api/cart/update/:itemId].  The guard is
    [!quantity || quantity < 1]; an absent quantity is falsy. *)
Definition put_cart_update (uid itemId : ObjectId) (quantity : option Z)
    : DB → DB * Response :=
  try_catch
    (if negb (truthy_number quantity) || js_lt quantity 1 then
       reply (mkResponse 400 (JMessage "Quantity must be at least 1"))
     else
       cart ← Cart_findOne uid;
       match cart with
       | None => reply (mkResponse 404 (JMessage "Cart not found"))
       | Some cart =>
           let itemIndex :=
             findIndex (λ item, N.eqb (CartItem._id item) itemId)
               (Cart.items cart) in
           if itemIndex =? -1 then
             reply (mkResponse 404 (JMessage "Item not found in cart"))
           else
             (* past the guard the quantity is a number *)
             cart ← Cart_save uid
                      (updateItem cart itemIndex (default 0 quantity));
             updatedCart ← Cart_findPopulated card uid;
             mret (mkResponse 200 (JCartPopulated updatedCart))
       end)
    (λ error, mkResponse 500 (JError "Error updating cart" error)).

(** [DELETE /api/cart/remove/:itemId], the filter and the total. *)
Definition removeItem (cart : Cart.t) (itemId : ObjectId) : Cart.t :=
  let items :=
    filter (λ item, CartItem._id item ≠ itemId) (Cart.items cart) in
  Cart.mk items (reduceTotal items).

(** [DELETE /api/cart/remove/:itemId]. *)
Definition delete_cart_remove (uid itemId : ObjectId) : DB → DB * Response :=
  try_catch
    (cart ← Cart_findOne uid;
     match cart with
     | None => reply (mkResponse 404 (JMessage "Cart not found"))
     | Some cart =>
         cart ← Cart_save uid (removeItem cart itemId);
         updatedCart ← Cart_findPopulated card uid;
         mret (mkResponse 200 (JCartPopulated updatedCart))
     end)
    (λ error, mkResponse 500 (JError "Error removing item from cart" error)).

(** [DELETE /api/cart/clear]. *)
Definition delete_cart_clear (uid : ObjectId) : DB → DB * Response :=
  try_catch
    (cart ← Cart_findOne uid;
     match cart with
     | None => reply (mkResponse 404 (JMessage "Cart not found"))
     | Some cart =>
         cart ← Cart_save uid (Cart.mk [] 0);
         mret (mkResponse 200 (JCleared "Cart cleared successfully" cart))
     end)
    (λ error, mkResponse 500 (JError "Error clearing cart" error)).

(** ** Order routes ([routes/order.routes.js]) *)

(** [GET /api/orders/:id]. *)
Definition get_order (uid id : ObjectId) : DB → DB * Response :=
  try_catch
    (order ← Order_findOne id uid;
     match order with
     | None => reply (mkResponse 404 (JMessage "Order not found"))
     | Some order =>
         bs ← populate card (OrderItem.book <$> Order.items order);
         mret (mkResponse 200 (JOrderPopulated id order bs))
     end)
    (λ error, mkResponse 500 (JError "Error retrieving order" error)).

(** [Array.prototype.map] with a callback that may throw: the first
    exception ends the traversal. *)
Fixpoint mapExn {A B} (f : A → Exn + B) (l : list A) : Exn + list B :=
  match l with
  | [] => inr []
  | x :: l' =>
      match f x with
      | inl e => inl e
      | inr y =>
          match mapExn f l' with
          | inl e => inl e
          | inr ys => inr (y :: ys)
          end
      end
  end.

(** The callback of [cart.items.map] in [POST /api/orders]: reading
    [item.book._id] on a populated [null] is a [TypeError]. *)
Definition toOrderItem (x : CartItem.t * option BookBrief)
    : Exn + OrderItem.t :=
  match x.2 with
  | None => inl TypeError
  | Some b =>
      inr (OrderItem.mk (brief_id b) (CartItem.quantity x.1)
             (CartItem.price x.1))
  end.

(** Casting the request's address to [addressSchema]: [country] has the
    default ['USA']. *)
Definition castAddress (a : Address.t) : Address.t :=
  Address.mk (Address.street a) (Address.city a) (Address.state a)
    (Address.zipCode a) (Some (default "USA" (Address.country a))).

(** [POST /api/orders]. *)
Definition post_orders (uid : ObjectId) (shippingAddress : option Address.t)
    (paymentMethod : option string) : DB → DB * Response :=
  try_catch
    (cart ← Cart_findPopulated brief uid;
     match cart with
     | None => reply (mkResponse 400 (JMessage "Cart is empty"))
     | Some (cart, populated) =>
         if (length (Cart.items cart) =? 0)%nat then
           reply (mkResponse 400 (JMessage "Cart is empty"))
         else
           orderItems ← liftExn (mapExn toOrderItem (zip (Cart.items cart) populated));
           _id ← Order_newId;
           let order :=
             Order.mk uid orderItems (Cart.totalAmount cart)
               (castAddress <$> shippingAddress) paymentMethod "pending" "" in
           createdOrder ← Order_save _id order;
           _ ← Cart_save uid (Cart.mk [] 0);
           mret (mkResponse 201 (JOrder _id createdOrder))
     end)
    (λ error, mkResponse 400 (JError "Error creating order" error)).

(** The statuses [PUT /api/orders/:id/status] accepts. *)
Definition assignableStatuses : list string :=
  ["pending"; "processing"; "shipped"; "delivered"].

Definition setStatus (order : Order.t) (status : string) : Order.t :=
  Order.mk (Order.user order) (Order.items order)
    (Order.totalAmount order) (Order.shippingAddress order)
    (Order.paymentMethod order) status (Order.trackingNumber order).

(** [PUT /api/orders/:id/status]; [includes] is false on an absent
    status. *)
Definition put_order_status (id : ObjectId) (status : option string)
    : DB → DB * Response :=
  try_catch
    (match status with
     | None => reply (mkResponse 400 (JMessage "Invalid status"))
     | Some status =>
         if negb (includes assignableStatuses status) then
           reply (mkResponse 400 (JMessage "Invalid status"))
         else
           order ← Order_findById id;
           match order with
           | None => reply (mkResponse 404 (JMessage "Order not found"))
           | Some order =>
               updatedOrder ← Order_save id (setStatus order status);
               mret (mkResponse 200 (JOrder id updatedOrder))
           end
     end)
    (λ error, mkResponse 400 (JError "Error updating order status" error)).

(** ** Catalogue routes ([routes/book.routes.js]) *)

(** [middleware/admin.middleware.js]. *)
Definition adminMiddleware (uid : ObjectId) (next : DB → DB * Response)
    : DB → DB * Response :=
  λ db,
    match users db !! uid with
    | Some user =>
        if User.isAdmin user then next db
        else (db, mkResponse 403
                    (JMessage "Access denied. Admin rights required for this operation."))
    | None => (db, mkResponse 403
                     (JMessage "Access denied. Admin rights required for this operation."))
    end.

(** [POST /api/books]; [coverImage] has the default ['']. *)
Definition post_books (uid : ObjectId)
    (title author description coverImage : option string) (price : option Z)
    : DB → DB * Response :=
  adminMiddleware uid (try_catch
    (newBook ← liftExn (castBook title author description
                          (Some (default "" coverImage)) price);
     id ← Book_newId;
     savedBook ← Book_save id newBook;
     mret (mkResponse 201 (JBook savedBook)))
    (λ error, mkResponse 400 (JError "Error creating book" error))).

(** [PUT /api/books/:id]; the stored price is [price || 0]. *)
Definition put_book (uid id : ObjectId)
    (title author description coverImage : option string) (price : option Z)
    : DB → DB * Response :=
  adminMiddleware uid (try_catch
    (if negb (truthy_string title) || negb (truthy_string author)
        || negb (truthy_string description) then
       reply (mkResponse 400
                (JMessage "Title, author, and description are required fields"))
     else
       book ← Book_findById id;
       match book with
       | None => reply (mkResponse 404 (JMessage "Book not found"))
       | Some _ =>
           book ← liftExn (castBook title author description coverImage
                             (Some (default 0 price)));
           updatedBook ← Book_save id book;
           mret (mkResponse 200 (JBook updatedBook))
       end)
    (λ error, mkResponse 400 (JError "Error updating book" error))).

(** [DELETE /api/books/:id]. *)
Definition delete_book (uid id : ObjectId) : DB → DB * Response :=
  adminMiddleware uid (try_catch
    (book ← Book_findById id;
     match book with
     | None => reply (mkResponse 404 (JMessage "Book not found"))
     | Some book =>
         _ ← Book_deleteOne id;
         mret (mkResponse 200
                 (JDeleted "Book deleted successfully" id (Book.title book)))
     end)
    (λ error, mkResponse 500 (JError "Error deleting book" error))).

(** ** The exposed operations, as one step function *)

Inductive Request :=
| GetCart (uid : ObjectId)
| CartAdd (uid bookId : ObjectId) (quantity : option Z)
| CartUpdate (uid itemId : ObjectId) (quantity : option Z)
| CartRemove (uid itemId : ObjectId)
| CartClear (uid : ObjectId)
| GetOrder (uid id : ObjectId)
| PlaceOrder (uid : ObjectId) (shippingAddress : option Address.t)
    (paymentMethod : option string)
| OrderStatus (id : ObjectId) (status : option string)
| BookCreate (uid : ObjectId)
    (title author description coverImage : option string) (price : option Z)
| BookUpdate (uid id : ObjectId)
    (title author description coverImage : option string) (price : option Z)
| BookDelete (uid id : ObjectId).

Definition handle (req : Request) : DB → DB * Response :=
  match req with
  | GetCart uid => get_cart uid
  | CartAdd uid bookId quantity => post_cart_add uid bookId quantity
  | CartUpdate uid itemId quantity => put_cart_update uid itemId quantity
  | CartRemove uid itemId => delete_cart_remove uid itemId
  | CartClear uid => delete_cart_clear uid
  | GetOrder uid id => get_order uid id
  | PlaceOrder uid a m => post_orders uid a m
  | OrderStatus id status => put_order_status id status
  | BookCreate uid t a d c p => post_books uid t a d c p
  | BookUpdate uid id t a d c p => put_book uid id t a d c p
  | BookDelete uid id => delete_book uid id
  end.

(** The database after a sequence of requests, served one after the
    other. *)
Definition serve (reqs : list Request) (db : DB) : DB :=
  fold_left (λ db req, (handle req db).1) reqs db.

(** ** Specification vocabulary *)

(** The amount of one line: unit price times quantity. *)
Definition lineAmount (item : CartItem.t) : Z :=
  CartItem.price item * CartItem.quantity item.

(** The sum, over the items, of unit price times quantity. *)
Fixpoint sumOfLines (items : list CartItem.t) : Z :=
  match items with
  | [] => 0
  | item :: items' => lineAmount item + sumOfLines items'
  end.

Definition setQuantity (item : CartItem.t) (quantity : Z) : CartItem.t :=
  CartItem.mk (CartItem._id item) (CartItem.book item) quantity
    (CartItem.price item).

(** The copy of a cart line the order keeps. *)
Definition copyItem (item : CartItem.t) : OrderItem.t :=
  OrderItem.mk (CartItem.book item) (CartItem.quantity item)
    (CartItem.price item).

(** What every write leaves behind: stored carts pass [cartSchema], carry
    the reduced total and have pairwise distinct item ids; stored orders
    pass [orderSchema]. *)
Record cart_ok (cart : Cart.t) : Prop := {
  cart_valid : validateCart cart = true;
  cart_total : Cart.totalAmount cart = reduceTotal (Cart.items cart);
  cart_ids : NoDup (CartItem._id <$> Cart.items cart)
}.

Record db_ok (db : DB) : Prop := {
  carts_ok : ∀ u c, carts db !! u = Some c → cart_ok c;
  orders_ok : ∀ id o, orders db !! id = Some o → validateOrder o = true
}.

(** The four mutating cart operations of one user. *)
Inductive cart_mutation (uid : ObjectId) : Request → Prop :=
| mutation_add bookId quantity : cart_mutation uid (CartAdd uid bookId quantity)
| mutation_update itemId quantity :
    cart_mutation uid (CartUpdate uid itemId quantity)
| mutation_remove itemId : cart_mutation uid (CartRemove uid itemId)
| mutation_clear : cart_mutation uid (CartClear uid).

(** A request body the order schema accepts. *)
Definition acceptable (shippingAddress : option Address.t)
    (paymentMethod : option string) : Prop :=
  match shippingAddress with
  | Some a => validateAddress (castAddress a) = true
  | None => True
  end
  ∧ ∃ m, paymentMethod = Some m ∧ includes paymentMethods m = true.

(** Place order on the non-empty cart of [uid]: exactly one order is
    added, under a new id; it copies the lines and the stored total of
    the cart; the cart is left empty with total zero. *)
Definition places_order (uid : ObjectId) (shippingAddress : option Address.t)
    (paymentMethod : option string) (db : DB) : Prop :=
  ∀ cart, carts db !! uid = Some cart → Cart.items cart ≠ [] →
    let db' := (post_orders uid shippingAddress paymentMethod db).1 in
    ∃ id order,
      orders db !! id = None
      ∧ orders db' = <[id := order]> (orders db)
      ∧ Order.user order = uid
      ∧ Order.items order = copyItem <$> Cart.items cart
      ∧ Order.totalAmount order = Cart.totalAmount cart
      ∧ carts db' = <[uid := Cart.mk [] 0]> (carts db).

(** The populated values of a list of book references. *)
Definition cards (db : DB) (refs : list ObjectId) : list (option BookCard) :=
  (λ id, card id <$> books db !! id) <$> refs.

Definition briefs (db : DB) (refs : list ObjectId) : list (option BookBrief) :=
  (λ id, brief id <$> books db !! id) <$> refs.

(** The document [new Order({ .. })] builds in [POST /api/orders]. *)
Definition newOrder (uid : ObjectId) (orderItems : list OrderItem.t)
    (cart : Cart.t) (shippingAddress : option Address.t)
    (paymentMethod : option string) : Order.t :=
  Order.mk uid orderItems (Cart.totalAmount cart)
    (castAddress <$> shippingAddress) paymentMethod "pending" "".

(** Two stored orders record the same purchase. *)
Definition same_purchase (o o' : Order.t) : Prop :=
  Order.items o' = Order.items o
  ∧ Order.totalAmount o' = Order.totalAmount o
  ∧ Order.user o' = Order.user o.

(** ** A worked store *)

(** A store whose only document is the administrator, user 1. *)
Definition seedDB : DB := mkDB {[ 1%N := User.mk true ]} ∅ ∅ ∅.

(** The administrator lists two books, priced 10 and 5, which get the ids
    0 and 1, and puts two copies of the first and one of the second in a
    cart. *)
Definition demoDB : DB :=
  serve [BookCreate 1 (Some "Emma") (Some "Jane Austen") (Some "A novel")
           None (Some 10);
         BookCreate 1 (Some "Persuasion") (Some "Jane Austen")
           (Some "A novel") None (Some 5);
         CartAdd 1 0 (Some 2);
         CartAdd 1 1 None] seedDB.

(** The cart this leaves: [{price: 10, qty: 2}, {price: 5, qty: 1}]. *)
Definition demoCart : Cart.t :=
  Cart.mk [CartItem.mk 0 0 2 10; CartItem.mk 1 1 1 5] 25.

Definition emma (p : Z) : Book.t :=
  Book.mk "Emma" "Jane Austen" "A novel" (Some "") p.

(** The same store after the catalogue price of book 0 went up to 99. *)
Definition demoDB_repriced : DB :=
  (put_book 1 0 (Some "Emma") (Some "Jane Austen") (Some "A novel")
     (Some "") (Some 99) demoDB).1.

Definition demoAddress : Address.t :=
  Address.mk (Some "1 High Street") (Some "Bath") (Some "Somerset")
    (Some "BA1") None.

(** The store after user 1 has checked the demo cart out. *)
Definition demoDB_ordered : DB :=
  (post_orders 1 (Some demoAddress) (Some "paypal") demoDB).1.

(** The demo store after the administrator has deleted book 1. *)
Definition demoDB_delisted : DB := (delete_book 1 1 demoDB).1.

(** The demo store with the cart of user 1 replaced by one line, two
    copies at 10, under a stored total of 999: a document whose total is
    not the sum of its lines, as a write that did not go through the
    routes can leave it. *)
Definition demoDB_stale : DB :=
  set_carts demoDB {[ 1%N := Cart.mk [CartItem.mk 0 0 2 10] 999 ]}.

(** ** Further vocabulary *)

(** The lines of an order added up the way the cart routes reduce the
    lines of a cart: one line at a time, in list order, onto a running
    total that starts at 0. *)
Fixpoint amountFrom (acc : Z) (items : list OrderItem.t) : Z :=
  match items with
  | [] => acc
  | item :: items' =>
      amountFrom (acc + OrderItem.price item * OrderItem.quantity item) items'
  end.

Definition orderAmount (items : list OrderItem.t) : Z := amountFrom 0 items.

(** Every stored order carries the running sum of its own lines as its
    total. *)
Definition orders_consistent (db : DB) : Prop :=
  ∀ id o, orders db !! id = Some o →
    Order.totalAmount o = orderAmount (Order.items o).

(** Every stored cart passes [cartSchema] and has pairwise distinct line
    ids. *)
Definition carts_wf (db : DB) : Prop :=
  ∀ u c, carts db !! u = Some c →
    validateCart c = true ∧ NoDup (CartItem._id <$> Cart.items c).

(** The cart requests of one user, the read included. *)
Definition cart_request (uid : ObjectId) (req : Request) : Prop :=
  req = GetCart uid ∨ cart_mutation uid req.

(** The catalogue requests of one user. *)
Inductive book_request (uid : ObjectId) : Request → Prop :=
| book_create t a d c p : book_request uid (BookCreate uid t a d c p)
| book_update id t a d c p : book_request uid (BookUpdate uid id t a d c p)
| book_delete id : book_request uid (BookDelete uid id).

Definition accessDenied : Response :=
  mkResponse 403
    (JMessage "Access denied. Admin rights required for this operation.").

(** No stored order has a status outside the four the status route
    assigns. *)
Definition statuses_assignable (db : DB) : Prop :=
  ∀ id o, orders db !! id = Some o →
    includes assignableStatuses (Order.status o) = true.

(** [GET /api/books/:id] ([routes/book.routes.js]). *)
Definition get_book (id : ObjectId) : DB → DB * Response :=
  try_catch
    (book ← Book_findById id;
     match book with
     | None => reply (mkResponse 404 (JMessage "Book not found"))
     | Some book => mret (mkResponse 200 (JBook (id, loaded book)))
     end)
    (λ error, mkResponse 500 (JError "Server error" error)).

(** The requester passes [adminMiddleware]. *)
Definition is_admin (db : DB) (uid : ObjectId) : Prop :=
  ∃ user, users db !! uid = Some user ∧ User.isAdmin user = true.

(** ** Saved books ([models/savedBook.model.js], [routes/savedBook.routes.js])

    The collection of saved books is a finite map from the [_id] of an
    entry to its two references.  The routes read the catalogue to
    populate an answer and write the collection only.  A request carries
    the id of the authenticated user and, for a save, the id of a book;
    a body without a book id is outside the model.  Both required paths
    are then present and the handler has just looked the pair up, so
    neither the validators nor the unique index on [{ book, user }] can
    refuse [newSavedBook.save()], and the [catch] branches are never
    taken. *)
Module SavedBook.
Record t := mk { book : ObjectId; user : ObjectId }.
End SavedBook.

Inductive SavedBody :=
| SMessage (message : string)
| SPopulated (entry : option (ObjectId * SavedBook.t * option Book.t)).

Record SavedResponse := mkSaved { saved_code : Z; saved_body : SavedBody }.

(** [SavedBook.findOne({ user, book })]: the first matching entry. *)
Definition SavedBook_findOne (user book : ObjectId)
    (saved : gmap ObjectId SavedBook.t) : option (ObjectId * SavedBook.t) :=
  head (filter (λ entry, SavedBook.user entry.2 = user
                         ∧ SavedBook.book entry.2 = book)
          (map_to_list saved)).

(** [SavedBook.findById(id).populate({ path: 'book', .. })]. *)
Definition SavedBook_findPopulated (catalogue : gmap ObjectId Book.t)
    (id : ObjectId) (saved : gmap ObjectId SavedBook.t)
    : option (ObjectId * SavedBook.t * option Book.t) :=
  entry ← saved !! id;
  Some (id, entry, catalogue !! SavedBook.book entry).

(** [POST /api/saved-books]. *)
Definition post_saved_book (catalogue : gmap ObjectId Book.t)
    (uid book : ObjectId) (saved : gmap ObjectId SavedBook.t)
    : gmap ObjectId SavedBook.t * SavedResponse :=
  match SavedBook_findOne uid book saved with
  | Some _ => (saved, mkSaved 400 (SMessage "Book already saved"))
  | None =>
      let id := fresh (dom saved) in
      let saved' := <[id := SavedBook.mk book uid]> saved in
      (saved', mkSaved 201
                 (SPopulated (SavedBook_findPopulated catalogue id saved')))
  end.

(** [DELETE /api/saved-books/:id]. *)
Definition delete_saved_book (uid id : ObjectId)
    (saved : gmap ObjectId SavedBook.t)
    : gmap ObjectId SavedBook.t * SavedResponse :=
  match saved !! id with
  | None => (saved, mkSaved 404 (SMessage "Saved book not found"))
  | Some savedBook =>
      if negb (N.eqb (SavedBook.user savedBook) uid) then
        (saved, mkSaved 403
                  (SMessage "Not authorized to remove this saved book"))
      else
        (delete id saved,
         mkSaved 200
           (SMessage "Book removed from saved list successfully"))
  end.

Inductive SavedRequest :=
| SaveBook (uid book : ObjectId)
| UnsaveBook (uid id : ObjectId).

Definition handle_saved (catalogue : gmap ObjectId Book.t) (req : SavedRequest)
    : gmap ObjectId SavedBook.t → gmap ObjectId SavedBook.t * SavedResponse :=
  match req with
  | SaveBook uid book => post_saved_book catalogue uid book
  | UnsaveBook uid id => delete_saved_book uid id
  end.

(** The collection after a sequence of requests; the catalogue may be any
    at each request, the routes never depend on it for what they write. *)
Definition serve_saved (reqs : list (gmap ObjectId Book.t * SavedRequest))
    (saved : gmap ObjectId SavedBook.t) : gmap ObjectId SavedBook.t :=
  fold_left (λ saved r, (handle_saved r.1 r.2 saved).1) reqs saved.

(** A user has saved a book. *)
Definition has_saved (saved : gmap ObjectId SavedBook.t)
    (uid book : ObjectId) : Prop :=
  ∃ id entry, saved !! id = Some entry
              ∧ SavedBook.user entry = uid ∧ SavedBook.book entry = book.

(** No user has two entries for the same book. *)
Definition saved_once (saved : gmap ObjectId SavedBook.t) : Prop :=
  ∀ i j x y, saved !! i = Some x → saved !! j = Some y →
    SavedBook.user x = SavedBook.user y →
    SavedBook.book x = SavedBook.book y → i = j.

(** The user a saved-book request is sent by. *)
Definition saved_requester (req : SavedRequest) : ObjectId :=
  match req with
  | SaveBook uid _ => uid
  | UnsaveBook uid _ => uid
  end.

(** A collection with one entry, of book 5 saved by user 1. *)
Definition demoSaved : gmap ObjectId SavedBook.t :=
  {[ 0%N := SavedBook.mk 5 1 ]}.

(** ** Reviews ([models/review.model.js], [routes/review.routes.js])

    A rating is a rational number: the schema's own example is 4.5.  The
    routes write the review collection only; to populate an answer they
    read the user names and the catalogue, given here as two finite maps.
    A request carries the id of the authenticated user and, for a create,
    the id of a book; a body without a book id is outside the model. *)
Module Review.
Record t := mk {
  book : ObjectId;
  user : ObjectId;
  rating : Q;
  comment : option string
}.
End Review.

Inductive ReviewExn :=
| ReviewValidationError
| ReviewDuplicateKey.

Inductive ReviewBody :=
| RMessage (message : string)
| RError (message : string) (error : ReviewExn)
| RPopulated
    (review : option (ObjectId * Review.t * option string * option string)).

Record ReviewResponse := mkReview { review_code : Z; review_body : ReviewBody }.

(** [reviewSchema]: [rating] has [min: 1] and [max: 5]. *)
Definition validateReview (review : Review.t) : bool :=
  Qle_bool 1 (Review.rating review) && Qle_bool (Review.rating review) 5.

(** The unique index on [{ book, user }]: another review of the same book
    by the same user is stored. *)
Definition reviewed (reviews : gmap ObjectId Review.t) (uid book : ObjectId)
    : Prop :=
  map_Exists (λ _ review, Review.user review = uid ∧ Review.book review = book)
    reviews.

(** [newReview.save()] of a new document: the validators, then the insert,
    which the unique index may refuse. *)
Definition Review_insert (id : ObjectId) (review : Review.t)
    (reviews : gmap ObjectId Review.t)
    : ReviewExn + gmap ObjectId Review.t :=
  if negb (validateReview review) then inl ReviewValidationError
  else if bool_decide (reviewed reviews (Review.user review) (Review.book review))
  then inl ReviewDuplicateKey
  else inr (<[id := review]> reviews).

(** [review.save()] of a stored document whose [book] and [user] are
    unchanged: the validators, then the update. *)
Definition Review_update (id : ObjectId) (review : Review.t)
    (reviews : gmap ObjectId Review.t)
    : ReviewExn + gmap ObjectId Review.t :=
  if negb (validateReview review) then inl ReviewValidationError
  else inr (<[id := review]> reviews).

(** [Review.findById(id).populate('user', 'username').populate('book',
    'title')]. *)
Definition Review_findPopulated (usernames : gmap ObjectId string)
    (catalogue : gmap ObjectId Book.t) (id : ObjectId)
    (reviews : gmap ObjectId Review.t)
    : option (ObjectId * Review.t * option string * option string) :=
  review ← reviews !! id;
  Some (id, review, usernames !! Review.user review,
        Book.title <$> catalogue !! Review.book review).

(** [GET /api/reviews/:id]. *)
Definition get_review (usernames : gmap ObjectId string)
    (catalogue : gmap ObjectId Book.t) (id : ObjectId)
    (reviews : gmap ObjectId Review.t) : ReviewResponse :=
  match Review_findPopulated usernames catalogue id reviews with
  | None => mkReview 404 (RMessage "Review not found")
  | Some review => mkReview 200 (RPopulated (Some review))
  end.

(** [POST /api/reviews]; the comment is trimmed by the schema, the rating
    is required. *)
Definition post_review (usernames : gmap ObjectId string)
    (catalogue : gmap ObjectId Book.t) (uid book : ObjectId)
    (rating : option Q) (comment : option string)
    (reviews : gmap ObjectId Review.t)
    : gmap ObjectId Review.t * ReviewResponse :=
  match rating with
  | None =>
      (reviews,
       mkReview 400 (RError "Error creating review" ReviewValidationError))
  | Some rating =>
      let id := fresh (dom reviews) in
      let newReview := Review.mk book uid rating (trim <$> comment) in
      match Review_insert id newReview reviews with
      | inl error =>
          (reviews, mkReview 400 (RError "Error creating review" error))
      | inr reviews' =>
          (reviews',
           mkReview 201
             (RPopulated (Review_findPopulated usernames catalogue id reviews')))
      end
  end.

(** [rating || review.rating]. *)
Definition rating_or (rating : option Q) (old : Q) : Q :=
  match rating with
  | Some r => if Qeq_bool r 0 then old else r
  | None => old
  end.

(** [comment || review.comment], assigned to the path, whose setter
    trims what it is given. *)
Definition comment_or (comment old : option string) : option string :=
  trim <$> (if truthy_string comment then comment else old).

(** [PUT /api/reviews/:id]. *)
Definition put_review (usernames : gmap ObjectId string)
    (catalogue : gmap ObjectId Book.t) (uid id : ObjectId)
    (rating : option Q) (comment : option string)
    (reviews : gmap ObjectId Review.t)
    : gmap ObjectId Review.t * ReviewResponse :=
  match reviews !! id with
  | None => (reviews, mkReview 404 (RMessage "Review not found"))
  | Some review =>
      if negb (N.eqb (Review.user review) uid) then
        (reviews, mkReview 403 (RMessage "Not authorized to update this review"))
      else
        let review' :=
          Review.mk (Review.book review) (Review.user review)
            (rating_or rating (Review.rating review))
            (comment_or comment (Review.comment review)) in
        match Review_update id review' reviews with
        | inl error =>
            (reviews, mkReview 400 (RError "Error updating review" error))
        | inr reviews' =>
            (reviews',
             mkReview 200
               (RPopulated
                  (Review_findPopulated usernames catalogue id reviews')))
        end
  end.

(** [DELETE /api/reviews/:id]. *)
Definition delete_review (uid id : ObjectId)
    (reviews : gmap ObjectId Review.t)
    : gmap ObjectId Review.t * ReviewResponse :=
  match reviews !! id with
  | None => (reviews, mkReview 404 (RMessage "Review not found"))
  | Some review =>
      if negb (N.eqb (Review.user review) uid) then
        (reviews, mkReview 403 (RMessage "Not authorized to delete this review"))
      else
        (delete id reviews, mkReview 200 (RMessage "Review deleted successfully"))
  end.

Inductive ReviewRequest :=
| ReviewCreate (uid book : ObjectId) (rating : option Q) (comment : option string)
| ReviewUpdate (uid id : ObjectId) (rating : option Q) (comment : option string)
| ReviewDelete (uid id : ObjectId).

Definition handle_review (usernames : gmap ObjectId string)
    (catalogue : gmap ObjectId Book.t) (req : ReviewRequest)
    : gmap ObjectId Review.t → gmap ObjectId Review.t * ReviewResponse :=
  match req with
  | ReviewCreate uid book rating comment =>
      post_review usernames catalogue uid book rating comment
  | ReviewUpdate uid id rating comment =>
      put_review usernames catalogue uid id rating comment
  | ReviewDelete uid id => delete_review uid id
  end.

Definition serve_reviews (usernames : gmap ObjectId string)
    (catalogue : gmap ObjectId Book.t) (reqs : list ReviewRequest)
    (reviews : gmap ObjectId Review.t) : gmap ObjectId Review.t :=
  fold_left (λ reviews req, (handle_review usernames catalogue req reviews).1)
    reqs reviews.

(** Every stored rating lies between 1 and 5. *)
Definition ratings_in_range (reviews : gmap ObjectId Review.t) : Prop :=
  ∀ id review, reviews !! id = Some review →
    (1 <= Review.rating review)%Q ∧ (Review.rating review <= 5)%Q.

(** No user has two reviews of the same book. *)
Definition reviewed_once (reviews : gmap ObjectId Review.t) : Prop :=
  ∀ i j x y, reviews !! i = Some x → reviews !! j = Some y →
    Review.user x = Review.user y → Review.book x = Review.book y → i = j.

(** A collection with one review, of book 5 by user 1. *)
Definition demoReviews : gmap ObjectId Review.t :=
  {[ 0%N := Review.mk 5 1 (3 # 1) (Some "fine") ]}.

(** The user a review request is sent by. *)
Definition review_requester (req : ReviewRequest) : ObjectId :=
  match req with
  | ReviewCreate uid _ _ _ => uid
  | ReviewUpdate uid _ _ _ => uid
  | ReviewDelete uid _ => uid
  end.

(** ** Deleting a user ([routes/admin.routes.js]) *)

Definition set_users (db : DB) (us : gmap ObjectId User.t) : DB :=
  mkDB us (books db) (carts db) (orders db).

Definition User_findById (id : ObjectId) : M (option User.t) :=
  λ db, (db, Ok (users db !! id)).

(** [User.countDocuments({ isAdmin: true })]. *)
Definition User_countAdmins : M nat :=
  λ db, (db, Ok (size (filter (λ entry, User.isAdmin entry.2 = true) (users db)))).

Definition User_findByIdAndDelete (id : ObjectId) : M unit :=
  λ db, (set_users db (delete id (users db)), Ok ()).

(** [DELETE /api/admin/users/:id]; the router runs [adminMiddleware]
    before every route. *)
Definition delete_user (uid id : ObjectId) : DB → DB * Response :=
  adminMiddleware uid (try_catch
    (userToDelete ← User_findById id;
     match userToDelete with
     | None => reply (mkResponse 404 (JMessage "User not found"))
     | Some userToDelete =>
         _ ← (if User.isAdmin userToDelete then
                adminCount ← User_countAdmins;
                if (adminCount <=? 1)%nat then
                  reply (mkResponse 400
                           (JMessage "Cannot delete the only admin account"))
                else mret ()
              else mret ());
         if N.eqb id uid then
           reply (mkResponse 400 (JMessage "Cannot delete your own account"))
         else
           _ ← User_findByIdAndDelete id;
           mret (mkResponse 200 (JMessage "User deleted successfully"))
     end)
    (λ error, mkResponse 400 (JError "Error deleting user" error))).

(** ** The cart routes over binary64 ([routes/cart.routes.js])

    The four mutating cart routes once more, with every [Number] a
    binary64 float of the kernel: quantities, prices and totals are
    rounded the way the JavaScript engine rounds them.  Only the books
    and the carts are in the store, the collections these routes read
    and write. *)
Module Double.

Module Book.
Record t := mk {
  title : string;
  author : string;
  description : string;
  coverImage : option string;
  price : float
}.
End Book.

Module CartItem.
Record t := mk {
  _id : ObjectId;
  book : ObjectId;
  quantity : float;
  price : float
}.
End CartItem.

Module Cart.
Record t := mk {
  items : list CartItem.t;
  totalAmount : float
}.
End Cart.

Record Store := mkStore {
  books : gmap ObjectId Book.t;
  carts : gmap ObjectId Cart.t
}.

Record BookCard := mkBookCard {
  card_id : ObjectId;
  card_title : string;
  card_author : string;
  card_coverImage : option string;
  card_price : float
}.

Inductive Body :=
| JMessage (message : string)
| JError (message : string) (error : Exn)
| JCartPopulated (cart : option (Cart.t * list (option BookCard)))
| JCleared (message : string) (cart : Cart.t).

Record Response := mkResponse { code : Z; body : Body }.

(** Truthiness of a request field that is a number or absent: [0], [-0]
    and [NaN] are falsy. *)
Definition truthy_number (x : option float) : bool :=
  match x with
  | Some n => negb (n =? 0)%float && negb (is_nan n)
  | None => false
  end.

(** [x < n] where [x] may be [undefined]. *)
Definition js_lt (x : option float) (n : float) : bool :=
  match x with Some a => (a <? n)%float | None => false end.

(** [items.reduce((total, item) => total + item.price * item.quantity, 0)]. *)
Definition reduceTotal (items : list CartItem.t) : float :=
  fold_left
    (λ total item, (total + CartItem.price item * CartItem.quantity item)%float)
    items 0%float.

(** [cartItemSchema]: [quantity] has [min: 1], which [NaN] fails. *)
Definition validateCartItem (item : CartItem.t) : bool :=
  (1 <=? CartItem.quantity item)%float.

(** [cartSchema]: the items; and the cast of the [Number] path
    [totalAmount] refuses [NaN], which makes the document invalid. *)
Definition validateCart (cart : Cart.t) : bool :=
  forallb validateCartItem (Cart.items cart)
  && negb (is_nan (Cart.totalAmount cart)).

(** [cartSchema.pre('save')]. *)
Definition pre_save (cart : Cart.t) : Cart.t :=
  Cart.mk (Cart.items cart) (reduceTotal (Cart.items cart)).

(** [cart.save()]: validate, run the hook, write. *)
Definition Cart_save (user : ObjectId) (cart : Cart.t) (db : Store)
    : Exn + Store * Cart.t :=
  if validateCart cart then
    let cart' := pre_save cart in
    inr (mkStore (books db) (<[user := cart']> (carts db)), cart')
  else inl ValidationError.

Definition card (id : ObjectId) (b : Book.t) : BookCard :=
  mkBookCard id (Book.title b) (Book.author b)
    (Some (default "" (Book.coverImage b))) (Book.price b).

(** [Cart.findById(cart._id).populate({ path: 'items.book', select })]. *)
Definition Cart_findPopulated (user : ObjectId) (db : Store)
    : option (Cart.t * list (option BookCard)) :=
  cart ← carts db !! user;
  Some (cart,
        (λ item, card (CartItem.book item) <$> books db !! CartItem.book item)
          <$> Cart.items cart).

Definition newItemId (items : list CartItem.t) : ObjectId :=
  fresh (list_to_set (CartItem._id <$> items) : gset ObjectId).

(** [POST /api/cart/add], from the look-up of the existing item to the
    total. *)
Definition addItem (cart : Cart.t) (bookId : ObjectId) (quantity : float)
    (book : Book.t) : Cart.t :=
  let existingItemIndex :=
    findIndex (λ item, N.eqb (CartItem.book item) bookId) (Cart.items cart) in
  let items :=
    if (0 <=? existingItemIndex)%Z then
      alter (λ item, CartItem.mk (CartItem._id item) (CartItem.book item)
                       (CartItem.quantity item + quantity)%float
                       (CartItem.price item))
        (Z.to_nat existingItemIndex) (Cart.items cart)
    else
      Cart.items cart
        ++ [CartItem.mk (newItemId (Cart.items cart)) bookId quantity
              (Book.price book)] in
  Cart.mk items (reduceTotal items).

(** [POST /api/cart/add]; [quantity] defaults to 1. *)
Definition post_cart_add (uid bookId : ObjectId) (quantity : option float)
    (db : Store) : Store * Response :=
  let quantity := default 1%float quantity in
  match books db !! bookId with
  | None => (db, mkResponse 404 (JMessage "Book not found"))
  | Some book =>
      let cart := default (Cart.mk [] 0%float) (carts db !! uid) in
      match Cart_save uid (addItem cart bookId quantity book) db with
      | inl error => (db, mkResponse 500 (JError "Error adding to cart" error))
      | inr (db', _) =>
          (db', mkResponse 200 (JCartPopulated (Cart_findPopulated uid db')))
      end
  end.

(** [PUT /api/cart/update/:itemId], the assignment and the total. *)
Definition updateItem (cart : Cart.t) (itemIndex : Z) (quantity : float)
    : Cart.t :=
  let items :=
    alter (λ item, CartItem.mk (CartItem._id item) (CartItem.book item)
                     quantity (CartItem.price item))
      (Z.to_nat itemIndex) (Cart.items cart) in
  Cart.mk items (reduceTotal items).

(** [PUT /api/cart/update/:itemId]; the guard is
    [!quantity || quantity < 1]. *)
Definition put_cart_update (uid itemId : ObjectId) (quantity : option float)
    (db : Store) : Store * Response :=
  if negb (truthy_number quantity) || js_lt quantity 1%float then
    (db, mkResponse 400 (JMessage "Quantity must be at least 1"))
  else
    match carts db !! uid with
    | None => (db, mkResponse 404 (JMessage "Cart not found"))
    | Some cart =>
        let itemIndex :=
          findIndex (λ item, N.eqb (CartItem._id item) itemId)
            (Cart.items cart) in
        if (itemIndex =? -1)%Z then
          (db, mkResponse 404 (JMessage "Item not found in cart"))
        else
          (* past the guard the quantity is a number *)
          match Cart_save uid
                  (updateItem cart itemIndex (default 0%float quantity)) db with
          | inl error =>
              (db, mkResponse 500 (JError "Error updating cart" error))
          | inr (db', _) =>
              (db', mkResponse 200 (JCartPopulated (Cart_findPopulated uid db')))
          end
    end.

(** [DELETE /api/cart/remove/:itemId], the filter and the total. *)
Definition removeItem (cart : Cart.t) (itemId : ObjectId) : Cart.t :=
  let items :=
    filter (λ item, CartItem._id item ≠ itemId) (Cart.items cart) in
  Cart.mk items (reduceTotal items).

(** [DELETE /api/cart/remove/:itemId]. *)
Definition delete_cart_remove (uid itemId : ObjectId) (db : Store)
    : Store * Response :=
  match carts db !! uid with
  | None => (db, mkResponse 404 (JMessage "Cart not found"))
  | Some cart =>
      match Cart_save uid (removeItem cart itemId) db with
      | inl error =>
          (db, mkResponse 500 (JError "Error removing item from cart" error))
      | inr (db', _) =>
          (db', mkResponse 200 (JCartPopulated (Cart_findPopulated uid db')))
      end
  end.

(** [DELETE /api/cart/clear]. *)
Definition delete_cart_clear (uid : ObjectId) (db : Store) : Store * Response :=
  match carts db !! uid with
  | None => (db, mkResponse 404 (JMessage "Cart not found"))
  | Some cart =>
      match Cart_save uid (Cart.mk [] 0%float) db with
      | inl error => (db, mkResponse 500 (JError "Error clearing cart" error))
      | inr (db', cart) =>
          (db', mkResponse 200 (JCleared "Cart cleared successfully" cart))
      end
  end.

(** The four mutating operations. *)
Inductive Mutation :=
| Add (bookId : ObjectId) (quantity : option float)
| Update (itemId : ObjectId) (quantity : option float)
| Remove (itemId : ObjectId)
| Clear.

Definition mutate (uid : ObjectId) (m : Mutation) : Store → Store * Response :=
  match m with
  | Add bookId quantity => post_cart_add uid bookId quantity
  | Update itemId quantity => put_cart_update uid itemId quantity
  | Remove itemId => delete_cart_remove uid itemId
  | Clear => delete_cart_clear uid
  end.

(** *** Specification vocabulary *)

(** The sum of the lines as it comes out on doubles: the line amounts are
    added one line at a time, in list order, to a running total; every
    product and every partial sum is rounded to the nearest double. *)
Fixpoint sumFrom (acc : float) (items : list CartItem.t) : float :=
  match items with
  | [] => acc
  | item :: items' =>
      sumFrom (acc + CartItem.price item * CartItem.quantity item)%float items'
  end.

Definition roundedSum (items : list CartItem.t) : float := sumFrom 0%float items.

(** The rational number a double stands for; none for [NaN] and the
    infinities. *)
Definition value (x : float) : option Q :=
  match Prim2SF x with
  | S754_zero _ => Some 0%Q
  | S754_finite s m e =>
      Some ((if s then inject_Z (Z.neg m) else inject_Z (Z.pos m))
            * Qpower 2 e)%Q
  | S754_infinity _ => None
  | S754_nan => None
  end.

(** The exact sum over the lines of unit price times quantity. *)
Fixpoint exactSum (items : list CartItem.t) : option Q :=
  match items with
  | [] => Some 0%Q
  | item :: items' =>
      p ← value (CartItem.price item);
      q ← value (CartItem.quantity item);
      s ← exactSum items';
      Some (p * q + s)%Q
  end.

(** The stored total is the exact sum of the lines. *)
Definition total_exact (cart : Cart.t) : Prop :=
  ∃ t s, value (Cart.totalAmount cart) = Some t
         ∧ exactSum (Cart.items cart) = Some s
         ∧ (t == s)%Q.

(** *** A worked store *)

(** A catalogue of three books, priced 10, 5 and 0.1, and the cart of
    user 1 with two copies of the first and one of the second.  The
    double nearest to 0.1 is written in hexadecimal, [0x1.999999999999ap-4]. *)
Definition shop : Store :=
  mkStore
    {[ 0%N := Book.mk "Emma" "Jane Austen" "A novel" (Some "") 10%float;
       1%N := Book.mk "Persuasion" "Jane Austen" "A novel" (Some "") 5%float;
       2%N := Book.mk "Postcard" "Anonymous" "A card" (Some "")
                0x1.999999999999ap-4%float ]}
    {[ 1%N := Cart.mk [CartItem.mk 0 0 2%float 10%float;
                       CartItem.mk 1 1 1%float 5%float] 25%float ]}.

End Double.

(** * Proofs *)

(** ** Running a handler *)

Ltac run :=
  repeat progress
    (unfold try_catch, mbind, M_bind, mret, M_ret, reply, throw, liftExn,
       Cart_findPopulated, Cart_findOne, Cart_save, Book_findById, Book_save,
       Book_deleteOne, Book_newId, Order_findById, Order_findOne, Order_save,
       Order_newId, populate;
     cbn beta iota zeta delta [carts books orders users set_carts set_books
                               set_orders fst snd]).

(** ** Arrays *)








(** ** The total *)

Lemma fold_left_lines items acc :
  fold_left (λ total item, total + CartItem.price item * CartItem.quantity item)
    items acc = acc + sumOfLines items.
Proof.
  revert acc. induction items as [|item items IH]; intros acc; simpl.
  - lia.
  - rewrite IH. unfold lineAmount. lia.
Qed.

Lemma reduceTotal_sum items : reduceTotal items = sumOfLines items.
Proof. unfold reduceTotal. rewrite fold_left_lines. lia. Qed.

(** ** The routes, flattened *)

Lemma pre_save_addItem cart bookId quantity book :
  pre_save (addItem cart bookId quantity book) = addItem cart bookId quantity book.
Proof. done. Qed.

Lemma post_cart_add_eq uid bookId quantity db :
  post_cart_add uid bookId quantity db =
  match books db !! bookId with
  | None => (db, mkResponse 404 (JMessage "Book not found"))
  | Some book =>
      let cart := addItem (default (Cart.mk [] 0) (carts db !! uid)) bookId
                    (default 1 quantity) book in
      if validateCart cart then
        (set_carts db (<[uid := cart]> (carts db)),
         mkResponse 200
           (JCartPopulated
              (Some (cart, cards db (CartItem.book <$> Cart.items cart)))))
      else (db, mkResponse 500 (JError "Error adding to cart" ValidationError))
  end.
Proof.
  unfold post_cart_add. run.
  destruct (books db !! bookId) as [book|]; [|done].
  rewrite pre_save_addItem.
  destruct (validateCart _); [|done].
  run. by rewrite lookup_insert_eq.
Qed.

Lemma put_cart_update_eq uid itemId quantity db :
  put_cart_update uid itemId quantity db =
  if negb (truthy_number quantity) || js_lt quantity 1 then
    (db, mkResponse 400 (JMessage "Quantity must be at least 1"))
  else
    match carts db !! uid with
    | None => (db, mkResponse 404 (JMessage "Cart not found"))
    | Some cart =>
        let itemIndex :=
          findIndex (λ item, N.eqb (CartItem._id item) itemId) (Cart.items cart) in
        if itemIndex =? -1 then
          (db, mkResponse 404 (JMessage "Item not found in cart"))
        else
          let cart' := updateItem cart itemIndex (default 0 quantity) in
          if validateCart cart' then
            (set_carts db (<[uid := cart']> (carts db)),
             mkResponse 200
               (JCartPopulated
                  (Some (cart', cards db (CartItem.book <$> Cart.items cart')))))
          else (db, mkResponse 500 (JError "Error updating cart" ValidationError))
    end.
Proof.
  unfold put_cart_update. run.
  destruct (negb (truthy_number quantity) || js_lt quantity 1); [done|].
  run. destruct (carts db !! uid) as [cart|]; [|done].
  destruct (_ =? -1); [done|].
  run. change (pre_save (updateItem ?c ?i ?q)) with (updateItem c i q).
  destruct (validateCart _); [|done].
  run. by rewrite lookup_insert_eq.
Qed.

Lemma delete_cart_remove_eq uid itemId db :
  delete_cart_remove uid itemId db =
  match carts db !! uid with
  | None => (db, mkResponse 404 (JMessage "Cart not found"))
  | Some cart =>
      let cart' := removeItem cart itemId in
      if validateCart cart' then
        (set_carts db (<[uid := cart']> (carts db)),
         mkResponse 200
           (JCartPopulated
              (Some (cart', cards db (CartItem.book <$> Cart.items cart')))))
      else (db, mkResponse 500
                  (JError "Error removing item from cart" ValidationError))
  end.
Proof.
  unfold delete_cart_remove. run.
  destruct (carts db !! uid) as [cart|]; [|done].
  change (pre_save (removeItem ?c ?i)) with (removeItem c i).
  destruct (validateCart _); [|done].
  run. by rewrite lookup_insert_eq.
Qed.

Lemma delete_cart_clear_eq uid db :
  delete_cart_clear uid db =
  match carts db !! uid with
  | None => (db, mkResponse 404 (JMessage "Cart not found"))
  | Some _ =>
      (set_carts db (<[uid := Cart.mk [] 0]> (carts db)),
       mkResponse 200 (JCleared "Cart cleared successfully" (Cart.mk [] 0)))
  end.
Proof.
  unfold delete_cart_clear. run.
  by destruct (carts db !! uid).
Qed.

Lemma get_cart_eq uid db :
  get_cart uid db =
  match carts db !! uid with
  | Some cart =>
      (db, mkResponse 200
             (JCartPopulated
                (Some (cart, cards db (CartItem.book <$> Cart.items cart)))))
  | None =>
      (set_carts db (<[uid := Cart.mk [] 0]> (carts db)),
       mkResponse 200 (JCart (Cart.mk [] 0)))
  end.
Proof.
  unfold get_cart. run.
  by destruct (carts db !! uid).
Qed.

Lemma post_orders_eq uid shippingAddress paymentMethod db :
  post_orders uid shippingAddress paymentMethod db =
  match carts db !! uid with
  | None => (db, mkResponse 400 (JMessage "Cart is empty"))
  | Some cart =>
      if (length (Cart.items cart) =? 0)%nat then
        (db, mkResponse 400 (JMessage "Cart is empty"))
      else
        match mapExn toOrderItem
                (zip (Cart.items cart)
                   (briefs db (CartItem.book <$> Cart.items cart))) with
        | inl e => (db, mkResponse 400 (JError "Error creating order" e))
        | inr orderItems =>
            let id := fresh (dom (orders db)) in
            let order :=
              newOrder uid orderItems cart shippingAddress paymentMethod in
            if validateOrder order then
              (mkDB (users db) (books db)
                 (<[uid := Cart.mk [] 0]> (carts db))
                 (<[id := order]> (orders db)),
               mkResponse 201 (JOrder id order))
            else
              (db, mkResponse 400
                     (JError "Error creating order" ValidationError))
        end
  end.
Proof.
  unfold post_orders. run.
  destruct (carts db !! uid) as [cart|]; [|done].
  run. destruct (_ =? _)%nat; [done|].
  run. fold (briefs db (CartItem.book <$> Cart.items cart)).
  destruct (mapExn _ _) as [e|orderItems]; [done|].
  run. fold (newOrder uid orderItems cart shippingAddress paymentMethod).
  destruct (validateOrder _); [|done].
  by run.
Qed.

Lemma put_order_status_eq id status db :
  put_order_status id status db =
  match status with
  | None => (db, mkResponse 400 (JMessage "Invalid status"))
  | Some status =>
      if negb (includes assignableStatuses status) then
        (db, mkResponse 400 (JMessage "Invalid status"))
      else
        match orders db !! id with
        | None => (db, mkResponse 404 (JMessage "Order not found"))
        | Some order =>
            if validateOrder (setStatus order status) then
              (set_orders db (<[id := setStatus order status]> (orders db)),
               mkResponse 200 (JOrder id (setStatus order status)))
            else
              (db, mkResponse 400
                     (JError "Error updating order status" ValidationError))
        end
  end.
Proof.
  unfold put_order_status. run.
  destruct status as [status|]; [|done].
  destruct (negb _); [done|].
  run. destruct (orders db !! id) as [order|]; [|done].
  by destruct (validateOrder _).
Qed.

Lemma get_order_eq uid id db :
  get_order uid id db =
  match orders db !! id with
  | Some order =>
      if N.eqb (Order.user order) uid then
        (db, mkResponse 200
               (JOrderPopulated id order
                  (cards db (OrderItem.book <$> Order.items order))))
      else (db, mkResponse 404 (JMessage "Order not found"))
  | None => (db, mkResponse 404 (JMessage "Order not found"))
  end.
Proof.
  unfold get_order. run.
  destruct (orders db !! id) as [order|]; [|done].
  simpl. by destruct (N.eqb _ _).
Qed.

(** ** The cart document under the three edits *)

Lemma validateCart_Forall cart :
  validateCart cart = true ↔
  Forall (λ item, 1 ≤ CartItem.quantity item) (Cart.items cart).
Proof.
  unfold validateCart, validateCartItem. rewrite forallb_forall, Forall_forall.
  split; intros H x Hx.
  - apply Z.leb_le, H. by apply list_elem_of_In.
  - apply Z.leb_le, H. by apply list_elem_of_In.
Qed.






Lemma filter_absent (i : ObjectId) (l : list CartItem.t) :
  i ∉ CartItem._id <$> l → filter (λ item, CartItem._id item ≠ i) l = l.
Proof.
  induction l as [|x l IH]; simpl; [done|].
  intros H. apply not_elem_of_cons in H as [H1 H2].
  rewrite filter_cons_True by done. by rewrite IH.
Qed.

Lemma removeItem_absent cart i :
  i ∉ CartItem._id <$> Cart.items cart →
  removeItem cart i = Cart.mk (Cart.items cart) (sumOfLines (Cart.items cart)).
Proof.
  intros H. unfold removeItem. by rewrite filter_absent, reduceTotal_sum.
Qed.

Lemma removeItem_present cart l1 item l2 :
  Cart.items cart = l1 ++ item :: l2 →
  NoDup (CartItem._id <$> Cart.items cart) →
  removeItem cart (CartItem._id item) =
  Cart.mk (l1 ++ l2) (sumOfLines (l1 ++ l2)).
Proof.
  intros Hitems Hnd. unfold removeItem. rewrite Hitems in *.
  rewrite fmap_app, fmap_cons in Hnd.
  apply NoDup_app in Hnd as (_ & H1 & H2).
  apply NoDup_cons in H2 as [H2 _].
  rewrite filter_app, filter_cons_False by (intros H; by apply H).
  rewrite !filter_absent, reduceTotal_sum; [done | done |].
  intros H. apply (H1 _ H). apply list_elem_of_here.
Qed.

(** Validity of the edited documents. *)


Lemma newItemId_fresh items : newItemId items ∉ CartItem._id <$> items.
Proof.
  unfold newItemId. intros H.
  apply (is_fresh (list_to_set (CartItem._id <$> items) : gset ObjectId)).
  by apply elem_of_list_to_set.
Qed.

(** ** The store invariant *)

Lemma fmap_alter_same {A B} (g : A → B) (f : A → A) (l : list A) i :
  (∀ x, g (f x) = g x) → g <$> alter f i l = g <$> l.
Proof.
  intros H. revert i. induction l as [|x l IH]; intros [|i]; simpl; try done.
  - by rewrite H.
  - f_equal. apply IH.
Qed.

Lemma empty_cart_ok : cart_ok (Cart.mk [] 0).
Proof. split; simpl; [done | done | constructor]. Qed.

Lemma addItem_ids cart b d book :
  NoDup (CartItem._id <$> Cart.items cart) →
  NoDup (CartItem._id <$> Cart.items (addItem cart b d book)).
Proof.
  intros Hnd. unfold addItem. simpl.
  destruct (0 <=? _).
  - by rewrite fmap_alter_same.
  - rewrite fmap_app. simpl. apply NoDup_app. split_and!; [done | | ].
    + intros x Hx Hx'. apply list_elem_of_singleton in Hx' as ->.
      by apply (newItemId_fresh (Cart.items cart)).
    + apply NoDup_singleton.
Qed.

Lemma addItem_ok cart b d book :
  NoDup (CartItem._id <$> Cart.items cart) →
  validateCart (addItem cart b d book) = true →
  cart_ok (addItem cart b d book).
Proof. intros Hnd Hv. split; [done | done | by apply addItem_ids]. Qed.

Lemma updateItem_ok cart i q :
  NoDup (CartItem._id <$> Cart.items cart) →
  validateCart (updateItem cart i q) = true →
  cart_ok (updateItem cart i q).
Proof.
  intros Hnd Hv. split; [done | done |].
  unfold updateItem. simpl. by rewrite fmap_alter_same.
Qed.

Lemma removeItem_ok cart i :
  NoDup (CartItem._id <$> Cart.items cart) →
  validateCart (removeItem cart i) = true →
  cart_ok (removeItem cart i).
Proof.
  intros Hnd Hv. split; [done | done |].
  unfold removeItem. simpl.
  induction (Cart.items cart) as [|x l IH]; simpl in *; [done|].
  apply NoDup_cons in Hnd as [Hx Hl].
  destruct (decide (CartItem._id x ≠ i)).
  - rewrite filter_cons_True by done. simpl. apply NoDup_cons. split; [|by apply IH].
    intros H. apply Hx. apply list_elem_of_fmap in H as (y & -> & Hy).
    apply list_elem_of_fmap_2. by apply list_elem_of_filter in Hy as [_ Hy].
  - rewrite filter_cons_False by done. by apply IH.
Qed.

Lemma db_ok_set_cart db u c :
  db_ok db → cart_ok c → db_ok (set_carts db (<[u := c]> (carts db))).
Proof.
  intros [Hc Ho] Hok. split; simpl; [|done].
  intros u' c'. rewrite lookup_insert. case_decide; [naive_solver | apply Hc].
Qed.

Lemma db_ok_set_order db id o :
  db_ok db → validateOrder o = true →
  db_ok (set_orders db (<[id := o]> (orders db))).
Proof.
  intros [Hc Ho] Hok. split; simpl; [done|].
  intros id' o'. rewrite lookup_insert. case_decide; [naive_solver | apply Ho].
Qed.

Lemma default_cart_ids db uid :
  db_ok db →
  NoDup (CartItem._id <$> Cart.items (default (Cart.mk [] 0) (carts db !! uid))).
Proof.
  intros [Hc _]. destruct (carts db !! uid) as [c|] eqn:E; simpl.
  - by apply (Hc _ _ E).
  - constructor.
Qed.

(** The catalogue routes write neither carts nor orders. *)
Lemma adminMiddleware_frame {T} (proj : DB → T) uid next db :
  (∀ db, proj (next db).1 = proj db) →
  proj (adminMiddleware uid next db).1 = proj db.
Proof.
  intros H. unfold adminMiddleware.
  destruct (users db !! uid) as [u|]; [|done]. destruct (User.isAdmin u); [apply H | done].
Qed.

Lemma post_books_frame uid t a d c p db :
  carts (post_books uid t a d c p db).1 = carts db
  ∧ orders (post_books uid t a d c p db).1 = orders db.
Proof.
  unfold post_books. split; apply adminMiddleware_frame; intros db'; run;
    by destruct (castBook _ _ _ _ _).
Qed.

Lemma put_book_frame uid id t a d c p db :
  carts (put_book uid id t a d c p db).1 = carts db
  ∧ orders (put_book uid id t a d c p db).1 = orders db.
Proof.
  unfold put_book. split; apply adminMiddleware_frame; intros db'; run;
    (destruct (_ || _); [done|]); run;
    (destruct (books db' !! id); [|done]); by destruct (castBook _ _ _ _ _).
Qed.

Lemma delete_book_frame uid id db :
  carts (delete_book uid id db).1 = carts db
  ∧ orders (delete_book uid id db).1 = orders db.
Proof.
  unfold delete_book. split; apply adminMiddleware_frame; intros db'; run;
    by destruct (books db' !! id).
Qed.

Lemma db_ok_frame db db' :
  carts db' = carts db → orders db' = orders db → db_ok db → db_ok db'.
Proof. intros Hc Ho [H1 H2]. split; [rewrite Hc | rewrite Ho]; done. Qed.

(** Every request leaves a store that satisfies the invariant. *)
Lemma handle_ok req db : db_ok db → db_ok (handle req db).1.
Proof.
  intros Hok. destruct req; simpl.
  - rewrite get_cart_eq. destruct (carts db !! uid); [done|].
    apply db_ok_set_cart; [done | apply empty_cart_ok].
  - rewrite post_cart_add_eq. destruct (books db !! bookId); [|done].
    simpl. destruct (validateCart _) eqn:Hv; [|done].
    apply db_ok_set_cart; [done|]. apply addItem_ok; [|done].
    by apply default_cart_ids.
  - rewrite put_cart_update_eq. destruct (_ || _); [done|].
    destruct (carts db !! uid) as [c|] eqn:E; [|done].
    simpl. destruct (_ =? -1); [done|].
    destruct (validateCart _) eqn:Hv; [|done].
    apply db_ok_set_cart; [done|]. apply updateItem_ok; [|done].
    by apply (carts_ok _ Hok _ _ E).
  - rewrite delete_cart_remove_eq.
    destruct (carts db !! uid) as [c|] eqn:E; [|done].
    simpl. destruct (validateCart _) eqn:Hv; [|done].
    apply db_ok_set_cart; [done|]. apply removeItem_ok; [|done].
    by apply (carts_ok _ Hok _ _ E).
  - rewrite delete_cart_clear_eq. destruct (carts db !! uid); [|done].
    apply db_ok_set_cart; [done | apply empty_cart_ok].
  - rewrite get_order_eq. destruct (orders db !! id) as [o|]; [|done].
    by destruct (N.eqb _ _).
  - rewrite post_orders_eq. destruct (carts db !! uid) as [c|]; [|done].
    destruct (_ =? _)%nat; [done|].
    destruct (mapExn _ _) as [e|orderItems]; [done|].
    simpl. destruct (validateOrder _) eqn:Hv; [|done].
    apply (db_ok_set_cart _ uid _ (db_ok_set_order _ _ _ Hok Hv) empty_cart_ok).
  - rewrite put_order_status_eq. destruct status as [s|]; [|done].
    destruct (negb _); [done|].
    destruct (orders db !! id) as [o|]; [|done].
    destruct (validateOrder _) eqn:Hv; [|done].
    by apply db_ok_set_order.
  - destruct (post_books_frame uid title author description coverImage price db).
    by apply (db_ok_frame db).
  - destruct (put_book_frame uid id title author description coverImage price db).
    by apply (db_ok_frame db).
  - destruct (delete_book_frame uid id db). by apply (db_ok_frame db).
Qed.

Lemma emptyDB_ok : db_ok emptyDB.
Proof. split; intros ? ?; simpl; by rewrite lookup_empty. Qed.

Lemma serve_ok reqs db : db_ok db → db_ok (serve reqs db).
Proof.
  unfold serve. revert db. induction reqs as [|req reqs IH]; intros db Hok; simpl.
  - done.
  - apply IH. by apply handle_ok.
Qed.

(** * Properties of the cart and order engine *)

(** ** The total on doubles *)

Lemma sumFrom_fold items acc :
  Double.sumFrom acc items
  = fold_left
      (λ total item,
         (total + Double.CartItem.price item * Double.CartItem.quantity item)%float)
      items acc.
Proof. revert acc. induction items as [|item items IH]; intros acc; by simpl. Qed.

Lemma reduceTotal_rounded items :
  Double.reduceTotal items = Double.roundedSum items.
Proof. symmetry. apply sumFrom_fold. Qed.

Lemma saved_total uid cart db db' cart' :
  Double.Cart_save uid cart db = inr (db', cart') →
  ∃ stored, Double.carts db' !! uid = Some stored
            ∧ Double.Cart.items stored = Double.Cart.items cart
            ∧ Double.Cart.totalAmount stored
              = Double.roundedSum (Double.Cart.items stored).
Proof.
  unfold Double.Cart_save. destruct (Double.validateCart cart); [|done].
  intros [= <- <-]. eexists. split; [apply lookup_insert_eq|].
  split; [done|]. apply reduceTotal_rounded.
Qed.

(** C1, amended.  After a mutating cart operation of a user (add item,
    update item quantity, remove item, clear cart) has completed
    successfully, that is with status 200, the stored cart of the user
    has a [totalAmount] equal to the sum over its items of unit price
    times quantity as doubles give it: the lines added up in item order
    from 0, every product and every partial sum rounded. *)
Theorem total_after_mutation uid m db :
  Double.code (Double.mutate uid m db).2 = 200 →
  ∃ cart, Double.carts (Double.mutate uid m db).1 !! uid = Some cart
          ∧ Double.Cart.totalAmount cart
            = Double.roundedSum (Double.Cart.items cart).
Proof.
  destruct m as [bookId quantity | itemId quantity | itemId |]; simpl.
  - unfold Double.post_cart_add.
    destruct (Double.books db !! bookId) as [book|]; [|done]. cbv zeta.
    destruct (Double.Cart_save _ _ _) as [e|[db' cart']] eqn:E; [done|].
    intros _. destruct (saved_total _ _ _ _ _ E) as (stored & H1 & _ & H2).
    by exists stored.
  - unfold Double.put_cart_update. destruct (_ || _); [done|].
    destruct (Double.carts db !! uid) as [cart|]; [|done]. cbv zeta.
    destruct (_ =? -1); [done|].
    destruct (Double.Cart_save _ _ _) as [e|[db' cart']] eqn:E; [done|].
    intros _. destruct (saved_total _ _ _ _ _ E) as (stored & H1 & _ & H2).
    by exists stored.
  - unfold Double.delete_cart_remove.
    destruct (Double.carts db !! uid) as [cart|]; [|done].
    destruct (Double.Cart_save _ _ _) as [e|[db' cart']] eqn:E; [done|].
    intros _. destruct (saved_total _ _ _ _ _ E) as (stored & H1 & _ & H2).
    by exists stored.
  - unfold Double.delete_cart_clear.
    destruct (Double.carts db !! uid) as [cart|]; [|done].
    destruct (Double.Cart_save _ _ _) as [e|[db' cart']] eqn:E; [done|].
    intros _. destruct (saved_total _ _ _ _ _ E) as (stored & H1 & _ & H2).
    by exists stored.
Qed.

(** Three copies of the book priced 10 added to the demo cart: the lines
    are 5 at 10 and 1 at 5, and the total 55 is exact. *)
Lemma total_after_mutation_witness :
  ∃ cart, Double.carts (Double.mutate 1 (Double.Add 0 (Some 3%float))
                          Double.shop).1 !! 1%N = Some cart
          ∧ Double.Cart.totalAmount cart
            = Double.roundedSum (Double.Cart.items cart).
Proof.
  apply (total_after_mutation 1 (Double.Add 0 (Some 3%float)) Double.shop).
  vm_compute. reflexivity.
Defined.

(** C1 as stated fails: the stored total is not the exact sum.  User 2
    adds three copies of the book priced 0.1: the answer is 200 and the
    stored total is 0.30000000000000004, the double
    [0x1.3333333333334p-2], which is not three times the stored price.
    User 1 sets the quantity of the second line of the demo cart to 2^53:
    the answer is 200, the lines are 2 at 10 and 2^53 at 5, whose amounts
    add up to 45035996273704980, and the stored total is
    45035996273704976. *)
Lemma total_not_exact :
  (Double.code (Double.mutate 2 (Double.Add 2 (Some 3%float)) Double.shop).2 = 200
   ∧ ∃ cart,
       Double.carts (Double.mutate 2 (Double.Add 2 (Some 3%float))
                       Double.shop).1 !! 2%N = Some cart
       ∧ Double.Cart.totalAmount cart = 0x1.3333333333334p-2%float
       ∧ ¬ Double.total_exact cart)
  ∧ (Double.code (Double.mutate 1 (Double.Update 1 (Some 9007199254740992%float))
                    Double.shop).2 = 200
     ∧ ∃ cart,
         Double.carts (Double.mutate 1
                         (Double.Update 1 (Some 9007199254740992%float))
                         Double.shop).1 !! 1%N = Some cart
         ∧ Qred <$> Double.value (Double.Cart.totalAmount cart)
           = Some (45035996273704976 # 1)
         ∧ Qred <$> Double.exactSum (Double.Cart.items cart)
           = Some (45035996273704980 # 1)
         ∧ ¬ Double.total_exact cart).
Proof.
  split; (split; [vm_compute; reflexivity|]).
  - eexists. split; [vm_compute; reflexivity|]. split; [reflexivity|].
    intros (t & s & Ht & Hs & Heq).
    vm_compute in Ht. vm_compute in Hs.
    injection Ht as <-. injection Hs as <-.
    vm_compute in Heq. discriminate Heq.
  - eexists. split; [vm_compute; reflexivity|].
    split; [vm_compute; reflexivity|]. split; [vm_compute; reflexivity|].
    intros (t & s & Ht & Hs & Heq).
    vm_compute in Ht. vm_compute in Hs.
    injection Ht as <-. injection Hs as <-.
    vm_compute in Heq. discriminate Heq.
Qed.

(** C3.  When the user has no cart, or a cart with no items, place order
    answers 400 with the message "Cart is empty"; the database it leaves
    is the one it found: no order is created and nothing is written. *)
Theorem place_order_empty uid shippingAddress paymentMethod db :
  carts db !! uid = None
  ∨ (∃ cart, carts db !! uid = Some cart ∧ Cart.items cart = []) →
  post_orders uid shippingAddress paymentMethod db
  = (db, mkResponse 400 (JMessage "Cart is empty")).
Proof.
  intros [H | (cart & H & Hitems)]; rewrite post_orders_eq, H; [done|].
  by rewrite Hitems.
Qed.

Lemma place_order_empty_witness :
  post_orders 7 (Some demoAddress) (Some "paypal") demoDB
  = (demoDB, mkResponse 400 (JMessage "Cart is empty"))
  ∧ post_orders 1 (Some demoAddress) (Some "paypal") demoDB_ordered
    = (demoDB_ordered, mkResponse 400 (JMessage "Cart is empty")).
Proof.
  split.
  - apply place_order_empty. left. vm_compute. reflexivity.
  - apply place_order_empty. right. exists (Cart.mk [] 0).
    split; vm_compute; reflexivity.
Defined.

(** C10.  Get order by id is scoped to the owner.  For an existing order
    of another user the answer is 404 "Order not found", the same as for
    an order that does not exist, never the order and never another
    error; the answer is 200 exactly when the order exists and its user
    is the requester, and then the body is that order. *)
Theorem get_order_scoped uid id db :
  (∀ order, orders db !! id = Some order → Order.user order ≠ uid →
     get_order uid id db = (db, mkResponse 404 (JMessage "Order not found")))
  ∧ (orders db !! id = None →
     get_order uid id db = (db, mkResponse 404 (JMessage "Order not found")))
  ∧ (∀ order, orders db !! id = Some order → Order.user order = uid →
     get_order uid id db
     = (db, mkResponse 200
              (JOrderPopulated id order
                 (cards db (OrderItem.book <$> Order.items order)))))
  ∧ (code (get_order uid id db).2 = 200 ↔
     ∃ order, orders db !! id = Some order ∧ Order.user order = uid).
Proof.
  rewrite get_order_eq. split_and!.
  - intros order -> Hne. by apply N.eqb_neq in Hne as ->.
  - by intros ->.
  - intros order -> <-. by rewrite N.eqb_refl.
  - destruct (orders db !! id) as [order|]; [|split; [done | by intros (? & ? & _)]].
    destruct (N.eqb_spec (Order.user order) uid) as [Heq|Hne]; simpl.
    + split; [by exists order | done].
    + split; [done | intros (o & [= <-] & Ho); done].
Qed.

Lemma get_order_scoped_witness :
  get_order 2 0 demoDB_ordered
  = (demoDB_ordered, mkResponse 404 (JMessage "Order not found"))
  ∧ code (get_order 1 0 demoDB_ordered).2 = 200.
Proof.
  split.
  - eapply (proj1 (get_order_scoped 2 0 demoDB_ordered)).
    + vm_compute. reflexivity.
    + vm_compute. discriminate.
  - apply (proj2 (proj2 (proj2 (get_order_scoped 1 0 demoDB_ordered)))).
    eexists. split; vm_compute; reflexivity.
Defined.

Lemma includes_elem_of l s : includes l s = true ↔ s ∈ l.
Proof.
  unfold includes. rewrite existsb_exists. split.
  - intros (x & Hx & Heq). apply String.eqb_eq in Heq as ->. by apply list_elem_of_In.
  - intros H. exists s. split; [by apply list_elem_of_In | apply String.eqb_refl].
Qed.

Lemma assignable_is_status s :
  includes assignableStatuses s = true → includes orderStatuses s = true.
Proof.
  unfold includes. simpl. intros H.
  repeat (destruct (String.eqb s _); simpl in *; try done).
Qed.

Lemma not_includes l s : includes l s = false → s ∉ l.
Proof. intros H Hs. apply includes_elem_of in Hs. congruence. Qed.

Lemma validateOrder_setStatus order s :
  validateOrder order = true → includes assignableStatuses s = true →
  validateOrder (setStatus order s) = true.
Proof.
  unfold validateOrder. simpl. intros H Hs.
  apply andb_true_iff in H as [H _].
  rewrite H. by apply assignable_is_status.
Qed.

(** C6.  Update order status answers 400 "Invalid status", leaving the
    database untouched, for an absent status and for every status outside
    pending, processing, shipped, delivered; "cancelled" and "archived"
    are outside.  For a status among the four it answers 404 when the
    order does not exist, and otherwise stores the order with its
    status set to the requested one and every other field as it was,
    whatever the current status of the stored order is, and answers 200
    with that order. *)
Theorem order_status_update id status db :
  ((∀ s, status = Some s →
      (s ∉ ["pending"; "processing"; "shipped"; "delivered"])) →
   put_order_status id status db
   = (db, mkResponse 400 (JMessage "Invalid status")))
  ∧ (∀ s, status = Some s →
      (s ∈ ["pending"; "processing"; "shipped"; "delivered"]) →
      (orders db !! id = None →
       put_order_status id status db
       = (db, mkResponse 404 (JMessage "Order not found")))
      ∧ (∀ order, orders db !! id = Some order →
           validateOrder order = true →
           let order' :=
             Order.mk (Order.user order) (Order.items order)
               (Order.totalAmount order) (Order.shippingAddress order)
               (Order.paymentMethod order) s (Order.trackingNumber order) in
           put_order_status id status db
           = (set_orders db (<[id := order']> (orders db)),
              mkResponse 200 (JOrder id order'))))
  ∧ ("cancelled" ∉ ["pending"; "processing"; "shipped"; "delivered"])
  ∧ ("archived" ∉ ["pending"; "processing"; "shipped"; "delivered"]).
Proof.
  rewrite put_order_status_eq. split_and!.
  - intros H. destruct status as [s|]; [|done].
    destruct (includes assignableStatuses s) eqn:E; [|done].
    apply includes_elem_of in E. by destruct (H s eq_refl).
  - intros s -> Hs. apply includes_elem_of in Hs.
    change (includes assignableStatuses s = true) in Hs. rewrite Hs. simpl.
    split; [by intros -> |].
    intros order -> Hv. cbv zeta.
    change (Order.mk (Order.user order) (Order.items order)
              (Order.totalAmount order) (Order.shippingAddress order)
              (Order.paymentMethod order) s (Order.trackingNumber order))
      with (setStatus order s).
    by rewrite validateOrder_setStatus.
  - by apply not_includes.
  - by apply not_includes.
Qed.

Lemma order_status_update_witness :
  put_order_status 0 (Some "archived") demoDB_ordered
  = (demoDB_ordered, mkResponse 400 (JMessage "Invalid status"))
  ∧ put_order_status 5 (Some "shipped") demoDB_ordered
    = (demoDB_ordered, mkResponse 404 (JMessage "Order not found"))
  ∧ ∃ order, orders (put_order_status 0 (Some "delivered") demoDB_ordered).1 !! 0%N
             = Some order ∧ Order.status order = "delivered".
Proof.
  split_and!.
  - apply (proj1 (order_status_update 0 (Some "archived") demoDB_ordered)).
    intros s [= <-]. by apply not_includes.
  - pose proof (proj1 (proj2 (order_status_update 5 (Some "shipped")
                                demoDB_ordered))
                  "shipped" eq_refl ltac:(by apply includes_elem_of))
      as [Hmissing _].
    apply Hmissing. vm_compute. reflexivity.
  - destruct (orders demoDB_ordered !! 0%N) as [order|] eqn:E;
      [|vm_compute in E; discriminate].
    pose proof (proj1 (proj2 (order_status_update 0 (Some "delivered")
                                demoDB_ordered))
                  "delivered" eq_refl ltac:(by apply includes_elem_of))
      as [_ Hstored].
    cbv zeta in Hstored. rewrite (Hstored order E).
    + eexists. split; [apply lookup_insert_eq | done].
    + vm_compute in E. injection E as <-. vm_compute. reflexivity.
Defined.

(** ** Cart edits *)



Lemma set_carts_same db uid cart :
  carts db !! uid = Some cart → set_carts db (<[uid := cart]> (carts db)) = db.
Proof. intros H. rewrite insert_id by done. by destruct db. Qed.

Lemma cart_eta cart :
  Cart.totalAmount cart = reduceTotal (Cart.items cart) →
  Cart.mk (Cart.items cart) (sumOfLines (Cart.items cart)) = cart.
Proof. intros H. rewrite <- reduceTotal_sum, <- H. by destruct cart. Qed.





Lemma removeItem_valid cart itemId :
  validateCart cart = true → validateCart (removeItem cart itemId) = true.
Proof.
  rewrite !validateCart_Forall. unfold removeItem. simpl.
  rewrite !Forall_forall. intros H x Hx. apply H.
  by apply list_elem_of_filter in Hx as [_ Hx].
Qed.

(** C8.  In a store that satisfies the invariant, remove item answers 404
    exactly when the user has no cart.  When the cart exists and no line
    has the given id, the answer is 200 and the database, hence the item
    list and the total of the cart, is unchanged; when a line has the id,
    the stored cart is the old one without that line and with the total
    recomputed as the sum of the remaining lines. *)
Theorem remove_item uid itemId db :
  db_ok db →
  (code (delete_cart_remove uid itemId db).2 = 404 ↔ carts db !! uid = None)
  ∧ (∀ cart, carts db !! uid = Some cart →
       (itemId ∉ CartItem._id <$> Cart.items cart) →
       delete_cart_remove uid itemId db
       = (db, mkResponse 200
                (JCartPopulated
                   (Some (cart, cards db (CartItem.book <$> Cart.items cart))))))
  ∧ (∀ cart l1 item l2, carts db !! uid = Some cart →
       Cart.items cart = l1 ++ item :: l2 → CartItem._id item = itemId →
       let cart' := Cart.mk (l1 ++ l2) (sumOfLines (l1 ++ l2)) in
       delete_cart_remove uid itemId db
       = (set_carts db (<[uid := cart']> (carts db)),
          mkResponse 200
            (JCartPopulated
               (Some (cart', cards db (CartItem.book <$> l1 ++ l2)))))).
Proof.
  intros Hok. rewrite delete_cart_remove_eq. split_and!.
  - destruct (carts db !! uid) as [cart|] eqn:E; [|done].
    simpl. rewrite removeItem_valid by apply (carts_ok _ Hok _ _ E).
    simpl. split; intros H; discriminate H.
  - intros cart E Habs. rewrite E. cbv zeta.
    destruct (carts_ok _ Hok _ _ E) as [Hv Ht _].
    rewrite removeItem_absent, cart_eta, Hv by done.
    by rewrite set_carts_same.
  - intros cart l1 item l2 E Hitems <-. rewrite E. cbv zeta.
    destruct (carts_ok _ Hok _ _ E) as [Hv Ht Hnd].
    rewrite removeItem_valid by done.
    by rewrite (removeItem_present cart l1 item l2 Hitems Hnd).
Qed.

Lemma seedDB_ok : db_ok seedDB.
Proof. split; intros ? ?; simpl; by rewrite lookup_empty. Qed.

Lemma demoDB_ok : db_ok demoDB.
Proof. apply serve_ok, seedDB_ok. Qed.

Lemma remove_item_witness :
  delete_cart_remove 1 9 demoDB
  = (demoDB, mkResponse 200
               (JCartPopulated
                  (Some (demoCart,
                         cards demoDB (CartItem.book <$> Cart.items demoCart)))))
  ∧ carts (delete_cart_remove 1 0 demoDB).1 !! 1%N
    = Some (Cart.mk [CartItem.mk 1 1 1 5] 5)
  ∧ code (delete_cart_remove 7 0 demoDB).2 = 404.
Proof.
  split_and!.
  - apply (proj1 (proj2 (remove_item 1 9 demoDB demoDB_ok))).
    + vm_compute. reflexivity.
    + apply (bool_decide_unpack _). vm_compute. reflexivity.
  - rewrite (proj2 (proj2 (remove_item 1 0 demoDB demoDB_ok))
               demoCart [] (CartItem.mk 0 0 2 10) [CartItem.mk 1 1 1 5]
               ltac:(vm_compute; reflexivity) eq_refl eq_refl).
    vm_compute. reflexivity.
  - apply (proj1 (remove_item 7 0 demoDB demoDB_ok)). vm_compute. reflexivity.
Defined.

(** ** Adding to the cart *)









(** ** Checkout *)

Lemma mapExn_resolved db (items : list CartItem.t) :
  (∀ item, item ∈ items → is_Some (books db !! CartItem.book item)) →
  mapExn toOrderItem (zip items (briefs db (CartItem.book <$> items)))
  = inr (copyItem <$> items).
Proof.
  induction items as [|item items IH]; intros H; [done|].
  destruct (H item (list_elem_of_here _ _)) as [bk Hbk].
  unfold briefs in *. rewrite !fmap_cons, Hbk.
  change (mapExn toOrderItem (zip (item :: ?l) (?x :: ?k)))
    with (match toOrderItem (item, x) with
          | inl e => inl e
          | inr y => match mapExn toOrderItem (zip l k) with
                     | inl e => inl e
                     | inr ys => inr (y :: ys)
                     end
          end).
  rewrite IH; [done|].
  intros y Hy. apply H. by apply list_elem_of_further.
Qed.

Lemma validateOrder_newOrder uid cart shippingAddress paymentMethod :
  validateCart cart = true → acceptable shippingAddress paymentMethod →
  validateOrder (newOrder uid (copyItem <$> Cart.items cart) cart
                   shippingAddress paymentMethod) = true.
Proof.
  intros Hv [Ha (m & -> & Hm)]. unfold validateOrder, newOrder.
  cbn [Order.items Order.shippingAddress Order.paymentMethod Order.status].
  rewrite Hm. change (includes orderStatuses "pending") with true.
  rewrite !andb_true_r. apply andb_true_iff. split.
  - unfold validateCart in Hv. rewrite forallb_forall in *.
    intros x Hx. apply in_map_iff in Hx as (item & <- & Hitem). by apply Hv.
  - by destruct shippingAddress.
Qed.

Lemma length_eqb_nonempty {A} (l : list A) : l ≠ [] → (length l =? 0)%nat = false.
Proof. by destruct l. Qed.

(** C2, amended.  For a request whose address and payment method pass the
    order schema and a non-empty cart that passes the cart schema and
    whose lines all reference books still in the catalogue, place order
    adds exactly one order, under a new id: its items are the
    element-wise copies (book, quantity, price) of the cart lines and its
    [totalAmount] is the stored [totalAmount] of the cart, whatever that
    is: it is copied, not recomputed from the copied lines; the cart is
    stored back empty with total zero. *)
Theorem place_order_copies uid shippingAddress paymentMethod db :
  (∀ cart, carts db !! uid = Some cart → validateCart cart = true) →
  acceptable shippingAddress paymentMethod →
  (∀ cart item, carts db !! uid = Some cart → item ∈ Cart.items cart →
     is_Some (books db !! CartItem.book item)) →
  places_order uid shippingAddress paymentMethod db.
Proof.
  intros Hvalid Hreq Hbooks cart Hcart Hne. simpl.
  rewrite post_orders_eq, Hcart, length_eqb_nonempty by done.
  rewrite mapExn_resolved by (intros; by eapply Hbooks). cbv zeta.
  rewrite validateOrder_newOrder; [| by apply Hvalid | done].
  simpl. eexists _, _. split_and!; try done.
  apply not_elem_of_dom, is_fresh.
Qed.

(** On the cart of two copies at 10 stored with a total of 999, the order
    carries 999, not 20. *)
Lemma place_order_copies_witness :
  places_order 1 (Some demoAddress) (Some "paypal") demoDB_stale
  ∧ ∃ order,
      orders (post_orders 1 (Some demoAddress) (Some "paypal") demoDB_stale).1
        !! 0%N = Some order
      ∧ Order.items order = [OrderItem.mk 0 2 10]
      ∧ Order.totalAmount order = 999.
Proof.
  split.
  - apply place_order_copies.
    + intros cart Hcart. vm_compute in Hcart. injection Hcart as <-.
      reflexivity.
    + split; [reflexivity | by exists "paypal"].
    + intros cart item Hcart Hitem. vm_compute in Hcart. injection Hcart as <-.
      apply list_elem_of_In in Hitem. simpl in Hitem.
      destruct Hitem as [<- | []]; vm_compute; eauto.
  - eexists. split_and!; vm_compute; reflexivity.
Defined.

(** The checkout of the cart [{price: 10, qty: 2}, {price: 5, qty: 1}]. *)
Example place_order_demo :
  ∃ order,
    post_orders 1 (Some demoAddress) (Some "paypal") demoDB
    = (demoDB_ordered, mkResponse 201 (JOrder 0 order))
    ∧ orders demoDB_ordered !! 0%N = Some order
    ∧ Order.items order = [OrderItem.mk 0 2 10; OrderItem.mk 1 1 5]
    ∧ Order.totalAmount order = 25
    ∧ carts demoDB_ordered !! 1%N = Some (Cart.mk [] 0).
Proof. eexists. split_and!; vm_compute; reflexivity. Qed.

(** C2 as stated fails.  The cart of user 1 is not empty, yet with the
    payment method "cash_on_delivery", which is outside the [enum] of
    [orderSchema], [order.save()] is rejected: the answer is 400, no order
    is created and the cart is not emptied.  The same happens, through a
    [TypeError], once a book of the cart has been deleted from the
    catalogue. *)
Lemma place_order_rejected :
  (post_orders 1 (Some demoAddress) (Some "cash_on_delivery") demoDB
   = (demoDB, mkResponse 400 (JError "Error creating order" ValidationError))
   ∧ ¬ places_order 1 (Some demoAddress) (Some "cash_on_delivery") demoDB)
  ∧ (post_orders 1 (Some demoAddress) (Some "paypal") demoDB_delisted
     = (demoDB_delisted, mkResponse 400 (JError "Error creating order" TypeError))
     ∧ ¬ places_order 1 (Some demoAddress) (Some "paypal") demoDB_delisted).
Proof.
  assert (post_orders 1 (Some demoAddress) (Some "cash_on_delivery") demoDB
          = (demoDB, mkResponse 400 (JError "Error creating order" ValidationError)))
    as E1 by (vm_compute; reflexivity).
  assert (post_orders 1 (Some demoAddress) (Some "paypal") demoDB_delisted
          = (demoDB_delisted,
             mkResponse 400 (JError "Error creating order" TypeError)))
    as E2 by (vm_compute; reflexivity).
  assert (∀ (db : DB) id (order : Order.t),
            orders db !! id = None → orders db ≠ <[id := order]> (orders db))
    as Hgrow.
  { intros db id order Hnone Heq. apply (f_equal (lookup id)) in Heq.
    rewrite lookup_insert_eq, Hnone in Heq. discriminate Heq. }
  split; (split; [done|]); intros H.
  - destruct (H demoCart) as (id & order & Hnone & Horders & _).
    + vm_compute. reflexivity.
    + discriminate.
    + rewrite E1 in Horders. by apply (Hgrow demoDB id order).
  - destruct (H demoCart) as (id & order & Hnone & Horders & _).
    + vm_compute. reflexivity.
    + discriminate.
    + rewrite E2 in Horders. by apply (Hgrow demoDB_delisted id order).
Qed.

(** ** Placed orders are out of reach of later requests *)

Lemma handle_keeps_order req db id order :
  orders db !! id = Some order →
  ∃ order', orders (handle req db).1 !! id = Some order'
            ∧ same_purchase order order'.
Proof.
  intros Ho.
  assert (∀ db', orders db' = orders db →
            ∃ order', orders db' !! id = Some order' ∧ same_purchase order order')
    as Hsame by (intros db' ->; by exists order).
  destruct req; simpl.
  - apply Hsame. rewrite get_cart_eq. by destruct (carts db !! uid).
  - apply Hsame. rewrite post_cart_add_eq. destruct (books db !! bookId); [|done].
    simpl. by destruct (validateCart _).
  - apply Hsame. rewrite put_cart_update_eq. destruct (_ || _); [done|].
    destruct (carts db !! uid); [|done]. simpl. destruct (_ =? -1); [done|].
    by destruct (validateCart _).
  - apply Hsame. rewrite delete_cart_remove_eq. destruct (carts db !! uid); [|done].
    simpl. by destruct (validateCart _).
  - apply Hsame. rewrite delete_cart_clear_eq. by destruct (carts db !! uid).
  - apply Hsame. rewrite get_order_eq. destruct (orders db !! id0); [|done].
    by destruct (N.eqb _ _).
  - rewrite post_orders_eq. destruct (carts db !! uid) as [c|]; [|by apply Hsame].
    destruct (_ =? _)%nat; [by apply Hsame|].
    destruct (mapExn _ _); [by apply Hsame|].
    simpl. destruct (validateOrder _); [|by apply Hsame].
    simpl. exists order. split; [|done].
    rewrite lookup_insert_ne; [done|].
    intros Heq. apply (is_fresh (dom (orders db))). rewrite Heq.
    apply elem_of_dom. eauto.
  - rewrite put_order_status_eq. destruct status as [s|]; [|by apply Hsame].
    destruct (negb _); [by apply Hsame|].
    destruct (orders db !! id0) as [o|] eqn:E; [|by apply Hsame].
    destruct (validateOrder _); [|by apply Hsame]. simpl.
    destruct (decide (id0 = id)) as [->|Hne].
    + rewrite lookup_insert_eq. eexists. split; [done|].
      rewrite Ho in E. by injection E as <-.
    + rewrite lookup_insert_ne by done. by exists order.
  - apply Hsame. apply post_books_frame.
  - apply Hsame. apply put_book_frame.
  - apply Hsame. apply delete_book_frame.
Qed.

(** C5.  Whatever requests are served after an order has been stored,
    price changes and deletions in the catalogue, cart operations, further
    checkouts and status updates included, the order is still stored
    under its id with the same items (book, quantity, price) and the same
    [totalAmount]. *)
Theorem placed_order_frame reqs db id order :
  orders db !! id = Some order →
  ∃ order', orders (serve reqs db) !! id = Some order'
            ∧ Order.items order' = Order.items order
            ∧ Order.totalAmount order' = Order.totalAmount order.
Proof.
  unfold serve. revert db order.
  induction reqs as [|req reqs IH]; intros db order Ho; simpl.
  - by exists order.
  - destruct (handle_keeps_order req db id order Ho) as (o1 & Ho1 & Hi & Ht & _).
    destruct (IH _ _ Ho1) as (o2 & Ho2 & Hi2 & Ht2).
    exists o2. split_and!; [done | congruence | congruence].
Qed.

Lemma placed_order_frame_witness :
  ∃ order',
    orders (serve [BookUpdate 1 0 (Some "Emma") (Some "Jane Austen")
                     (Some "A novel") None (Some 99);
                   CartAdd 1 0 (Some 4); CartClear 1; BookDelete 1 1;
                   OrderStatus 0 (Some "shipped")] demoDB_ordered) !! 0%N
    = Some order'
    ∧ Order.items order' = [OrderItem.mk 0 2 10; OrderItem.mk 1 1 5]
    ∧ Order.totalAmount order' = 25.
Proof.
  destruct place_order_demo as (order & _ & Ho & Hitems & Htotal & _).
  rewrite <- Hitems, <- Htotal.
  by apply placed_order_frame.
Defined.

(** * Further properties of the cart and order routes *)

Lemma carts_wf_set db u c :
  carts_wf db → validateCart c = true →
  NoDup (CartItem._id <$> Cart.items c) →
  carts_wf (set_carts db (<[u := c]> (carts db))).
Proof.
  intros Hwf Hv Hnd u' c'. simpl. rewrite lookup_insert.
  case_decide; [by intros [= <-] | apply Hwf].
Qed.

Lemma carts_wf_same db db' : carts db' = carts db → carts_wf db → carts_wf db'.
Proof. intros Heq Hwf u c. rewrite Heq. apply Hwf. Qed.

Lemma default_cart_wf db uid :
  carts_wf db →
  NoDup (CartItem._id <$> Cart.items (default (Cart.mk [] 0) (carts db !! uid))).
Proof.
  intros Hwf. destruct (carts db !! uid) as [c|] eqn:E; simpl.
  - by apply (Hwf _ _ E).
  - constructor.
Qed.

Lemma handle_wf req db : carts_wf db → carts_wf (handle req db).1.
Proof.
  intros Hwf. destruct req; simpl.
  - rewrite get_cart_eq. destruct (carts db !! uid); [done|].
    apply carts_wf_set; [done | done | constructor].
  - rewrite post_cart_add_eq. destruct (books db !! bookId); [|done].
    simpl. destruct (validateCart _) eqn:Hv; [|done].
    apply carts_wf_set; [done | done |]. by apply addItem_ids, default_cart_wf.
  - rewrite put_cart_update_eq. destruct (_ || _); [done|].
    destruct (carts db !! uid) as [c|] eqn:E; [|done].
    simpl. destruct (_ =? -1); [done|].
    destruct (validateCart _) eqn:Hv; [|done].
    apply carts_wf_set; [done | done |].
    apply updateItem_ok; [|done]. by apply (Hwf _ _ E).
  - rewrite delete_cart_remove_eq.
    destruct (carts db !! uid) as [c|] eqn:E; [|done].
    simpl. destruct (validateCart _) eqn:Hv; [|done].
    apply carts_wf_set; [done | done |].
    apply removeItem_ok; [|done]. by apply (Hwf _ _ E).
  - rewrite delete_cart_clear_eq. destruct (carts db !! uid); [|done].
    apply carts_wf_set; [done | done | constructor].
  - rewrite get_order_eq. destruct (orders db !! id) as [o|]; [|done].
    by destruct (N.eqb _ _).
  - rewrite post_orders_eq. destruct (carts db !! uid) as [c|]; [|done].
    destruct (_ =? _)%nat; [done|].
    destruct (mapExn _ _) as [e|orderItems]; [done|].
    simpl. destruct (validateOrder _); [|done].
    intros u' c'. simpl. rewrite lookup_insert.
    case_decide; [intros [= <-]; split; [done | constructor] | apply Hwf].
  - rewrite put_order_status_eq. destruct status as [s|]; [|done].
    destruct (negb _); [done|].
    destruct (orders db !! id) as [o|]; [|done].
    by destruct (validateOrder _).
  - apply (carts_wf_same db); [|done]. apply post_books_frame.
  - apply (carts_wf_same db); [|done]. apply put_book_frame.
  - apply (carts_wf_same db); [|done]. apply delete_book_frame.
Qed.

(** X1.  Starting from a store in which every cart passes the cart schema
    and has pairwise distinct line ids, the empty store for instance,
    after any sequence of requests every stored cart has only lines of
    quantity at least 1 and pairwise distinct line ids. *)
Theorem served_carts_consistent reqs db u c :
  carts_wf db → carts (serve reqs db) !! u = Some c →
  Forall (λ item, 1 ≤ CartItem.quantity item) (Cart.items c)
  ∧ NoDup (CartItem._id <$> Cart.items c).
Proof.
  intros Hwf Hc.
  assert (carts_wf (serve reqs db)) as Hwf'.
  { clear Hc. unfold serve. revert db Hwf.
    induction reqs as [|req reqs IH]; intros db Hwf; simpl; [done|].
    apply IH. by apply handle_wf. }
  destruct (Hwf' u c Hc) as [Hv Hnd]. split; [|done].
  by apply validateCart_Forall.
Qed.

Lemma served_carts_consistent_witness :
  Forall (λ item, 1 ≤ CartItem.quantity item) (Cart.items demoCart)
  ∧ NoDup (CartItem._id <$> Cart.items demoCart).
Proof.
  apply (served_carts_consistent
           [BookCreate 1 (Some "Emma") (Some "Jane Austen") (Some "A novel")
              None (Some 10);
            BookCreate 1 (Some "Persuasion") (Some "Jane Austen")
              (Some "A novel") None (Some 5);
            CartAdd 1 0 (Some 2);
            CartAdd 1 1 None] seedDB 1%N demoCart).
  - intros u c H. vm_compute in H. discriminate H.
  - vm_compute. reflexivity.
Defined.

(** ** The total of a placed order *)

Lemma mapExn_copies db (items : list CartItem.t) ys :
  mapExn toOrderItem (zip items (briefs db (CartItem.book <$> items))) = inr ys →
  ys = copyItem <$> items.
Proof.
  revert ys. induction items as [|item items IH]; intros ys; simpl.
  - by intros [= <-].
  - unfold toOrderItem at 1. simpl.
    destruct (books db !! CartItem.book item) as [bk|]; simpl; [|done].
    unfold briefs in IH.
    destruct (mapExn toOrderItem _) as [e|zs]; [done|].
    intros [= <-]. by rewrite (IH zs eq_refl).
Qed.

Lemma amountFrom_copy items acc :
  amountFrom acc (copyItem <$> items)
  = fold_left
      (λ total item, total + CartItem.price item * CartItem.quantity item)
      items acc.
Proof.
  revert acc. induction items as [|item items IH]; intros acc; [done|].
  rewrite fmap_cons. simpl. by rewrite IH.
Qed.

Lemma orderAmount_copy items :
  orderAmount (copyItem <$> items) = reduceTotal items.
Proof. apply amountFrom_copy. Qed.

Lemma orders_consistent_insert db id o :
  orders_consistent db → Order.totalAmount o = orderAmount (Order.items o) →
  ∀ db', orders db' = <[id := o]> (orders db) → orders_consistent db'.
Proof.
  intros Hc Ho db' Heq id' o'. rewrite Heq, lookup_insert.
  case_decide; [by intros [= <-] | apply Hc].
Qed.

Lemma orders_consistent_same db db' :
  orders db' = orders db → orders_consistent db → orders_consistent db'.
Proof. intros Heq Hc id o. rewrite Heq. apply Hc. Qed.

Lemma handle_orders_consistent req db :
  db_ok db → orders_consistent db → orders_consistent (handle req db).1.
Proof.
  intros Hok Hc. destruct req; simpl.
  - apply (orders_consistent_same db); [|done].
    rewrite get_cart_eq. by destruct (carts db !! uid).
  - apply (orders_consistent_same db); [|done].
    rewrite post_cart_add_eq. destruct (books db !! bookId); [|done].
    simpl. by destruct (validateCart _).
  - apply (orders_consistent_same db); [|done].
    rewrite put_cart_update_eq. destruct (_ || _); [done|].
    destruct (carts db !! uid); [|done]. simpl. destruct (_ =? -1); [done|].
    by destruct (validateCart _).
  - apply (orders_consistent_same db); [|done].
    rewrite delete_cart_remove_eq. destruct (carts db !! uid); [|done].
    simpl. by destruct (validateCart _).
  - apply (orders_consistent_same db); [|done].
    rewrite delete_cart_clear_eq. by destruct (carts db !! uid).
  - apply (orders_consistent_same db); [|done].
    rewrite get_order_eq. destruct (orders db !! id); [|done].
    by destruct (N.eqb _ _).
  - rewrite post_orders_eq. destruct (carts db !! uid) as [c|] eqn:E; [|done].
    destruct (_ =? _)%nat; [done|].
    destruct (mapExn _ _) as [e|orderItems] eqn:Em; [done|].
    simpl. destruct (validateOrder _); [|done].
    eapply (orders_consistent_insert db); [done | | done].
    simpl. apply mapExn_copies in Em as ->.
    rewrite orderAmount_copy.
    by destruct (carts_ok _ Hok _ _ E).
  - rewrite put_order_status_eq. destruct status as [s|]; [|done].
    destruct (negb _); [done|].
    destruct (orders db !! id) as [o|] eqn:E; [|done].
    destruct (validateOrder _); [|done].
    eapply (orders_consistent_insert db); [done | | done].
    simpl. by apply (Hc id).
  - apply (orders_consistent_same db); [|done]. apply post_books_frame.
  - apply (orders_consistent_same db); [|done]. apply put_book_frame.
  - apply (orders_consistent_same db); [|done]. apply delete_book_frame.
Qed.

(** X2.  The total an order copies from the cart is the total of the
    order's own lines, added up the way a cart total is: starting from a
    store that satisfies the invariant and in which every order carries
    the running sum, in item order from 0, of price times quantity over
    its lines, the same holds for every stored order after any sequence
    of requests.  No law of addition or multiplication is used: the
    lines of the order are those of the cart, in the same order. *)
Theorem served_orders_consistent reqs db id o :
  db_ok db → orders_consistent db →
  orders (serve reqs db) !! id = Some o →
  Order.totalAmount o = orderAmount (Order.items o).
Proof.
  unfold serve. revert db.
  induction reqs as [|req reqs IH]; intros db Hok Hc; simpl.
  - apply Hc.
  - apply IH; [by apply handle_ok | by apply handle_orders_consistent].
Qed.

Lemma served_orders_consistent_witness :
  ∃ o, orders demoDB_ordered !! 0%N = Some o
       ∧ Order.totalAmount o = orderAmount (Order.items o).
Proof.
  destruct (orders demoDB_ordered !! 0%N) as [o|] eqn:E;
    [|vm_compute in E; discriminate].
  exists o. split; [done|].
  apply (served_orders_consistent
           [PlaceOrder 1 (Some demoAddress) (Some "paypal")] demoDB 0%N o).
  - exact demoDB_ok.
  - intros id o' H. vm_compute in H. discriminate.
  - exact E.
Defined.

(** ** Reading, clearing and isolating carts *)


(** X3.  Reading the cart creates it on first access and never afterwards:
    for a user without a cart the empty cart with total zero is stored,
    for a user with a cart nothing is written; either way the answer is
    200, no other user's cart changes, and reading a second time leaves
    the store as the first read left it. *)
Theorem get_cart_lazy uid db :
  code (get_cart uid db).2 = 200
  ∧ carts (get_cart uid db).1 !! uid
    = Some (default (Cart.mk [] 0) (carts db !! uid))
  ∧ (∀ u, u ≠ uid → carts (get_cart uid db).1 !! u = carts db !! u)
  ∧ (is_Some (carts db !! uid) → (get_cart uid db).1 = db)
  ∧ (get_cart uid (get_cart uid db).1).1 = (get_cart uid db).1.
Proof.
  rewrite !get_cart_eq.
  destruct (carts db !! uid) as [cart|] eqn:E; simpl.
  - rewrite E. split_and!; try done.
  - rewrite lookup_insert_eq. split_and!; try done.
    all: try (intros u Hu; by rewrite lookup_insert_ne).
    all: try (by intros [? ?]).
Qed.

(** X4.  A cart request of one user (read, add, update, remove, clear)
    writes nothing but that user's cart: users, books and orders stay as
    they are and so does the cart of every other user. *)
Theorem cart_request_isolated uid req db :
  cart_request uid req →
  users (handle req db).1 = users db
  ∧ books (handle req db).1 = books db
  ∧ orders (handle req db).1 = orders db
  ∧ ∀ u, u ≠ uid → carts (handle req db).1 !! u = carts db !! u.
Proof.
  assert (∀ cs : gmap ObjectId Cart.t, ∀ c u, u ≠ uid → <[uid := c]> cs !! u = cs !! u)
    as Hne by (intros; by rewrite lookup_insert_ne).
  intros [-> | Hmut]; [|destruct Hmut]; simpl.
  - rewrite get_cart_eq. destruct (carts db !! uid); simpl; auto.
  - rewrite post_cart_add_eq. destruct (books db !! bookId); [|done].
    simpl. destruct (validateCart _); simpl; auto.
  - rewrite put_cart_update_eq. destruct (_ || _); [done|].
    destruct (carts db !! uid); [|done]. simpl. destruct (_ =? -1); [done|].
    destruct (validateCart _); simpl; auto.
  - rewrite delete_cart_remove_eq. destruct (carts db !! uid); [|done].
    simpl. destruct (validateCart _); simpl; auto.
  - rewrite delete_cart_clear_eq. destruct (carts db !! uid); simpl; auto.
Qed.

Lemma cart_request_isolated_witness :
  carts (handle (CartClear 1) demoDB_ordered).1 !! 2%N = carts demoDB_ordered !! 2%N
  ∧ orders (handle (CartAdd 1 0 (Some 4)) demoDB_ordered).1 = orders demoDB_ordered.
Proof.
  split.
  - apply (cart_request_isolated 1 (CartClear 1) demoDB_ordered);
      [right; constructor | discriminate].
  - apply (cart_request_isolated 1 (CartAdd 1 0 (Some 4)) demoDB_ordered).
    right. constructor.
Defined.

(** X5.  Clear cart answers 404 and writes nothing when the user has no
    cart.  Otherwise it answers 200 and stores the empty cart with total
    zero; clearing again changes nothing more, and a checkout that
    follows is refused with 400 "Cart is empty" whatever its body. *)
Theorem clear_cart uid db :
  (carts db !! uid = None →
   delete_cart_clear uid db = (db, mkResponse 404 (JMessage "Cart not found")))
  ∧ (is_Some (carts db !! uid) →
     let db' := (delete_cart_clear uid db).1 in
     code (delete_cart_clear uid db).2 = 200
     ∧ carts db' !! uid = Some (Cart.mk [] 0)
     ∧ (delete_cart_clear uid db').1 = db'
     ∧ ∀ shippingAddress paymentMethod,
         post_orders uid shippingAddress paymentMethod db'
         = (db', mkResponse 400 (JMessage "Cart is empty"))).
Proof.
  split.
  - intros H. by rewrite delete_cart_clear_eq, H.
  - intros [cart E]. cbv zeta. rewrite !delete_cart_clear_eq, E. simpl.
    rewrite lookup_insert_eq. split_and!; [done | done | |].
    + simpl. by rewrite insert_insert_eq.
    + intros a m. rewrite post_orders_eq. simpl. by rewrite lookup_insert_eq.
Qed.

Lemma clear_cart_witness :
  delete_cart_clear 7 demoDB = (demoDB, mkResponse 404 (JMessage "Cart not found"))
  ∧ carts (delete_cart_clear 1 demoDB).1 !! 1%N = Some (Cart.mk [] 0).
Proof.
  split.
  - apply (proj1 (clear_cart 7 demoDB)). vm_compute. reflexivity.
  - apply (proj2 (clear_cart 1 demoDB)). exists demoCart. vm_compute. reflexivity.
Defined.

(** X6.  No order is placed twice: once a checkout has answered 201, the
    next checkout of the same user, whatever its body, is refused with
    400 "Cart is empty" and writes nothing. *)
Theorem no_double_checkout uid a m a' m' db :
  code (post_orders uid a m db).2 = 201 →
  post_orders uid a' m' (post_orders uid a m db).1
  = ((post_orders uid a m db).1, mkResponse 400 (JMessage "Cart is empty")).
Proof.
  rewrite (post_orders_eq uid a m).
  destruct (carts db !! uid) as [cart|]; [|done].
  destruct (_ =? _)%nat; [done|].
  destruct (mapExn _ _); [done|]. cbv zeta.
  destruct (validateOrder _); [|done]. intros _. simpl.
  rewrite post_orders_eq. simpl. by rewrite lookup_insert_eq.
Qed.

Lemma no_double_checkout_witness :
  post_orders 1 None (Some "stripe") demoDB_ordered
  = (demoDB_ordered, mkResponse 400 (JMessage "Cart is empty")).
Proof.
  apply (no_double_checkout 1 (Some demoAddress) (Some "paypal") None
           (Some "stripe") demoDB).
  vm_compute. reflexivity.
Defined.

(** ** How cart edits compose *)






Lemma setQuantity_twice item q q' :
  setQuantity (setQuantity item q) q' = setQuantity item q'.
Proof. done. Qed.



(** ** When a checkout is refused *)

Lemma mapExn_unresolved db (items : list CartItem.t) item :
  item ∈ items → books db !! CartItem.book item = None →
  mapExn toOrderItem (zip items (briefs db (CartItem.book <$> items)))
  = inl TypeError.
Proof.
  intros Hin Hnone. induction items as [|x items IH]; [inversion Hin|].
  unfold briefs in *. rewrite !fmap_cons.
  change (mapExn toOrderItem (zip (x :: ?l) (?y :: ?k)))
    with (match toOrderItem (x, y) with
          | inl e => inl e
          | inr z => match mapExn toOrderItem (zip l k) with
                     | inl e => inl e
                     | inr zs => inr (z :: zs)
                     end
          end).
  unfold toOrderItem at 1. simpl.
  destruct (books db !! CartItem.book x) as [bk|] eqn:E; simpl; [|done].
  apply elem_of_cons in Hin as [-> | Hin]; [congruence|].
  by rewrite IH.
Qed.

(** X9.  A deleted book blocks the checkout: when a line of the user's
    cart references a book that is not in the catalogue, place order
    answers 400 "Error creating order" (the [TypeError] of reading
    [item.book._id] on a populated [null]), whatever the request body,
    and writes nothing: no order is created and the cart keeps its
    lines. *)
Theorem checkout_blocked_by_deleted_book uid a m db cart item :
  carts db !! uid = Some cart → item ∈ Cart.items cart →
  books db !! CartItem.book item = None →
  post_orders uid a m db
  = (db, mkResponse 400 (JError "Error creating order" TypeError)).
Proof.
  intros Hc Hin Hnone. rewrite post_orders_eq, Hc.
  rewrite length_eqb_nonempty by (intros E; rewrite E in Hin; inversion Hin).
  by rewrite (mapExn_unresolved db _ item).
Qed.

Lemma checkout_blocked_by_deleted_book_witness :
  post_orders 1 None (Some "stripe") demoDB_delisted
  = (demoDB_delisted, mkResponse 400 (JError "Error creating order" TypeError)).
Proof.
  apply (checkout_blocked_by_deleted_book 1 None (Some "stripe") demoDB_delisted
           demoCart (CartItem.mk 1 1 1 5)).
  - vm_compute. reflexivity.
  - apply list_elem_of_further, list_elem_of_here.
  - vm_compute. reflexivity.
Defined.

Lemma validateOrder_newOrder_iff uid cart a m :
  validateCart cart = true →
  validateOrder (newOrder uid (copyItem <$> Cart.items cart) cart a m) = true
  ↔ acceptable a m.
Proof.
  intros Hv. split; [|by apply validateOrder_newOrder].
  unfold validateOrder, newOrder, acceptable.
  cbn [Order.items Order.shippingAddress Order.paymentMethod Order.status].
  rewrite !andb_true_iff. intros [[[_ Ha] Hm] _]. split.
  - by destruct a.
  - destruct m as [m|]; [by exists m | done].
Qed.

(** X10.  What decides a checkout: in a store that satisfies the
    invariant, for a non-empty cart whose lines all reference books in the
    catalogue, place order answers 201 exactly when the request body is
    acceptable to the order schema (a payment method among credit_card,
    paypal, stripe, and either no address or one with street, city,
    state and zip code); otherwise it answers 400 "Error creating order"
    and writes nothing. *)
Theorem checkout_decided_by_schema uid a m db cart :
  db_ok db → carts db !! uid = Some cart → Cart.items cart ≠ [] →
  (∀ item, item ∈ Cart.items cart → is_Some (books db !! CartItem.book item)) →
  (code (post_orders uid a m db).2 = 201 ↔ acceptable a m)
  ∧ (¬ acceptable a m →
     post_orders uid a m db
     = (db, mkResponse 400 (JError "Error creating order" ValidationError))).
Proof.
  intros Hok Hc Hne Hbooks.
  destruct (carts_ok _ Hok _ _ Hc) as [Hv _ _].
  rewrite post_orders_eq, Hc, length_eqb_nonempty, mapExn_resolved by done.
  cbv zeta.
  pose proof (validateOrder_newOrder_iff uid cart a m Hv) as Hiff.
  destruct (validateOrder _); simpl.
  - split; [|intros Hn; by destruct Hn; apply Hiff]. split; [|done].
    intros _. by apply Hiff.
  - split; [|done]. split; [done|]. intros Hacc. by apply Hiff in Hacc.
Qed.

Lemma checkout_decided_by_schema_witness :
  post_orders 1 (Some demoAddress) None demoDB
  = (demoDB, mkResponse 400 (JError "Error creating order" ValidationError))
  ∧ code (post_orders 1 None (Some "stripe") demoDB).2 = 201.
Proof.
  assert (∀ item, item ∈ Cart.items demoCart →
            is_Some (books demoDB !! CartItem.book item)) as Hbooks.
  { intros item Hitem. apply list_elem_of_In in Hitem. simpl in Hitem.
    destruct Hitem as [<- | [<- | []]]; vm_compute; eauto. }
  assert (carts demoDB !! 1%N = Some demoCart) as Hc by (vm_compute; reflexivity).
  split.
  - apply (proj2 (checkout_decided_by_schema 1 (Some demoAddress) None demoDB
                    demoCart demoDB_ok Hc ltac:(discriminate) Hbooks)).
    intros [_ (m & Hm & _)]. discriminate Hm.
  - apply (proj1 (checkout_decided_by_schema 1 None (Some "stripe") demoDB
                    demoCart demoDB_ok Hc ltac:(discriminate) Hbooks)).
    split; [done | by exists "stripe"].
Defined.

(** ** The catalogue routes *)

Lemma adminMiddleware_denied uid next db :
  ¬ is_admin db uid → adminMiddleware uid next db = (db, accessDenied).
Proof.
  intros Hn. unfold adminMiddleware.
  destruct (users db !! uid) as [user|] eqn:E; [|done].
  destruct (User.isAdmin user) eqn:Ea; [|done].
  destruct Hn. by exists user.
Qed.

Lemma adminMiddleware_passed uid next db :
  is_admin db uid → adminMiddleware uid next db = next db.
Proof.
  intros (user & E & Ea). unfold adminMiddleware. by rewrite E, Ea.
Qed.

(** X11.  The catalogue is written by administrators only: a create,
    update or delete of a book sent by a user who is unknown or is not an
    administrator is answered 403 and leaves the whole store as it
    was. *)
Theorem catalogue_admin_only uid req db :
  book_request uid req → ¬ is_admin db uid →
  handle req db = (db, accessDenied).
Proof.
  intros Hreq Hn. destruct Hreq; simpl;
    unfold post_books, put_book, delete_book; by apply adminMiddleware_denied.
Qed.

Lemma catalogue_admin_only_witness :
  handle (BookDelete 2 0) demoDB = (demoDB, accessDenied).
Proof.
  apply (catalogue_admin_only 2 (BookDelete 2 0) demoDB); [constructor|].
  intros (user & E & _). vm_compute in E. discriminate E.
Defined.

(** X12.  The catalogue routes write books only: whoever sends it and
    whatever it carries, a create, update or delete of a book leaves
    users, carts and orders as they are, so the unit price stored in a
    cart line or an order line survives every later change of the
    catalogue price. *)
Theorem catalogue_writes_books_only uid req db :
  book_request uid req →
  users (handle req db).1 = users db
  ∧ carts (handle req db).1 = carts db
  ∧ orders (handle req db).1 = orders db.
Proof.
  intros Hreq. destruct Hreq; cbn [handle].
  - destruct (post_books_frame uid t a d c p db) as [Hc Ho].
    split_and!; [|done|done].
    unfold post_books. apply (adminMiddleware_frame users). intros db'. run.
    by destruct (castBook _ _ _ _ _).
  - destruct (put_book_frame uid id t a d c p db) as [Hc Ho].
    split_and!; [|done|done].
    unfold put_book. apply (adminMiddleware_frame users). intros db'. run.
    destruct (_ || _); [done|]. run.
    destruct (books db' !! id); [|done]. by destruct (castBook _ _ _ _ _).
  - destruct (delete_book_frame uid id db) as [Hc Ho].
    split_and!; [|done|done].
    unfold delete_book. apply (adminMiddleware_frame users). intros db'. run.
    by destruct (books db' !! id).
Qed.

Lemma catalogue_writes_books_only_witness :
  carts demoDB_repriced = carts demoDB ∧ carts demoDB_delisted = carts demoDB.
Proof.
  split.
  - apply (catalogue_writes_books_only 1
             (BookUpdate 1 0 (Some "Emma") (Some "Jane Austen") (Some "A novel")
                (Some "") (Some 99)) demoDB).
    constructor.
  - apply (catalogue_writes_books_only 1 (BookDelete 1 1) demoDB). constructor.
Defined.

Lemma put_book_eq uid id title author description coverImage price db :
  is_admin db uid →
  put_book uid id title author description coverImage price db =
  if negb (truthy_string title) || negb (truthy_string author)
     || negb (truthy_string description) then
    (db, mkResponse 400
           (JMessage "Title, author, and description are required fields"))
  else
    match books db !! id with
    | None => (db, mkResponse 404 (JMessage "Book not found"))
    | Some _ =>
        match castBook title author description coverImage
                (Some (default 0 price)) with
        | inl e => (db, mkResponse 400 (JError "Error updating book" e))
        | inr book =>
            (set_books db (<[id := book]> (books db)),
             mkResponse 200 (JBook (id, book)))
        end
    end.
Proof.
  intros Ha. unfold put_book. rewrite adminMiddleware_passed by done. run.
  destruct (_ || _); [done|]. run.
  destruct (books db !! id); [|done]. by destruct (castBook _ _ _ _ _).
Qed.

Lemma truthy_string_trim t : trim t ≠ "" → truthy_string (Some t) = true.
Proof.
  intros H. simpl. destruct t; [done|]. done.
Qed.

Lemma required_nonempty s : s ≠ "" → required_string (Some s) = true.
Proof. intros H. simpl. by destruct s. Qed.

(** X13.  Updating a book, for an administrator and a book in the
    catalogue, with a title and an author that are not blank and a
    description that is not empty: the stored title and author are the
    trimmed ones and the stored price is the price of the request, or 0
    when the request has none; a negative price is refused with 400
    and nothing is written.  A title made of white space only, a
    no-break space for instance, passes the handler's own check and is
    refused, with 400 "Error updating book", by the schema. *)
Theorem put_book_edges uid id t a d coverImage price db old :
  is_admin db uid → books db !! id = Some old →
  trim a ≠ "" → d ≠ "" →
  (trim t ≠ "" → 0 ≤ default 0 price →
   put_book uid id (Some t) (Some a) (Some d) coverImage price db
   = (set_books db
        (<[id := Book.mk (trim t) (trim a) d coverImage (default 0 price)]>
           (books db)),
      mkResponse 200
        (JBook (id, Book.mk (trim t) (trim a) d coverImage (default 0 price)))))
  ∧ (default 0 price < 0 →
     t ≠ "" →
     put_book uid id (Some t) (Some a) (Some d) coverImage price db
     = (db, mkResponse 400 (JError "Error updating book" ValidationError)))
  ∧ (t ≠ "" → trim t = "" →
     put_book uid id (Some t) (Some a) (Some d) coverImage price db
     = (db, mkResponse 400 (JError "Error updating book" ValidationError))).
Proof.
  intros Hadm Hold Ha Hd. rewrite put_book_eq by done.
  rewrite (truthy_string_trim a Ha), (required_nonempty d Hd : truthy_string (Some d) = true).
  rewrite Hold. unfold castBook.
  rewrite (required_nonempty (trim a) Ha), (required_nonempty d Hd).
  split_and!.
  - intros Ht Hp. rewrite (truthy_string_trim t Ht), (required_nonempty (trim t) Ht).
    simpl. by replace (0 <=? default 0 price) with true
      by (symmetry; apply Z.leb_le; lia).
  - intros Hp Ht. rewrite (required_nonempty t Ht : truthy_string (Some t) = true).
    simpl. replace (0 <=? default 0 price) with false
      by (symmetry; apply Z.leb_gt; lia).
    by rewrite !andb_false_r.
  - intros Ht Hblank.
    rewrite (required_nonempty t Ht : truthy_string (Some t) = true).
    simpl. by rewrite Hblank.
Qed.

Lemma put_book_edges_witness :
  books (put_book 1 0 (Some " Emma ") (Some "Jane Austen") (Some "A novel")
           None None demoDB).1 !! 0%N
  = Some (Book.mk "Emma" "Jane Austen" "A novel" None 0)
  ∧ put_book 1 0 (Some "  ") (Some "Jane Austen") (Some "A novel") None (Some 3)
      demoDB
    = (demoDB, mkResponse 400 (JError "Error updating book" ValidationError))
  ∧ put_book 1 0 (Some noBreakSpace) (Some "Jane Austen") (Some "A novel") None
      (Some 3) demoDB
    = (demoDB, mkResponse 400 (JError "Error updating book" ValidationError)).
Proof.
  assert (is_admin demoDB 1) as Hadm
    by (exists (User.mk true); split; vm_compute; reflexivity).
  assert (books demoDB !! 0%N = Some (emma 10)) as Hold
    by (vm_compute; reflexivity).
  split_and!.
  - rewrite (proj1 (put_book_edges 1 0 " Emma " "Jane Austen" "A novel" None None
                      demoDB (emma 10) Hadm Hold ltac:(discriminate)
                      ltac:(discriminate)) ltac:(discriminate) ltac:(simpl; lia)).
    simpl. rewrite lookup_insert_eq. reflexivity.
  - apply (proj2 (proj2 (put_book_edges 1 0 "  " "Jane Austen" "A novel" None
                           (Some 3) demoDB (emma 10) Hadm Hold
                           ltac:(discriminate) ltac:(discriminate))));
      [discriminate | reflexivity].
  - apply (proj2 (proj2 (put_book_edges 1 0 noBreakSpace "Jane Austen" "A novel"
                           None (Some 3) demoDB (emma 10) Hadm Hold
                           ltac:(discriminate) ltac:(discriminate))));
      [discriminate | reflexivity].
Defined.

Lemma post_books_eq uid title author description coverImage price db :
  is_admin db uid →
  post_books uid title author description coverImage price db =
  match castBook title author description (Some (default "" coverImage)) price with
  | inl e => (db, mkResponse 400 (JError "Error creating book" e))
  | inr book =>
      (set_books db (<[fresh (dom (books db)) := book]> (books db)),
       mkResponse 201 (JBook (fresh (dom (books db)), book)))
  end.
Proof.
  intros Ha. unfold post_books. rewrite adminMiddleware_passed by done. run.
  by destruct (castBook _ _ _ _ _).
Qed.

Lemma delete_book_eq uid id db :
  is_admin db uid →
  delete_book uid id db =
  match books db !! id with
  | None => (db, mkResponse 404 (JMessage "Book not found"))
  | Some book =>
      (set_books db (delete id (books db)),
       mkResponse 200 (JDeleted "Book deleted successfully" id (Book.title book)))
  end.
Proof.
  intros Ha. unfold delete_book. rewrite adminMiddleware_passed by done. run.
  by destruct (books db !! id).
Qed.

Lemma get_book_eq id db :
  get_book id db =
  match books db !! id with
  | None => (db, mkResponse 404 (JMessage "Book not found"))
  | Some book => (db, mkResponse 200 (JBook (id, loaded book)))
  end.
Proof. unfold get_book. run. by destruct (books db !! id). Qed.

Lemma castBook_loaded title author description coverImage price book :
  castBook title author description (Some coverImage) price = inr book →
  loaded book = book.
Proof.
  unfold castBook. destruct title, author, description, price; try done.
  destruct (_ && _); [|done]. by intros [= <-].
Qed.

(** X14.  Creating a book never touches a book that exists: whatever the
    request and its sender, every book of the catalogue is still there,
    unchanged, afterwards; and when the answer is 201 the catalogue has
    grown by exactly the book of the answer, under an id that was free,
    so that reading that id returns the book. *)
Theorem post_books_adds uid title author description coverImage price db :
  let res := post_books uid title author description coverImage price db in
  (∀ id b, books db !! id = Some b → books res.1 !! id = Some b)
  ∧ (code res.2 = 201 →
     ∃ id b, body res.2 = JBook (id, b)
             ∧ books db !! id = None
             ∧ books res.1 = <[id := b]> (books db)
             ∧ get_book id res.1 = (res.1, mkResponse 200 (JBook (id, b)))).
Proof.
  cbv zeta. unfold post_books, adminMiddleware.
  destruct (users db !! uid) as [user|]; [|done].
  destruct (User.isAdmin user); [|done]. run.
  destruct (castBook _ _ _ _ _) as [e|book] eqn:Hcast; [done|]. simpl.
  assert (books db !! fresh (dom (books db)) = None) as Hfresh
    by apply not_elem_of_dom, is_fresh.
  split.
  - intros id b Hb. rewrite lookup_insert_ne; [done|]. intros <-. congruence.
  - intros _. exists (fresh (dom (books db))), book. split_and!; try done.
    rewrite get_book_eq. simpl. rewrite lookup_insert_eq.
    by rewrite (castBook_loaded _ _ _ _ _ _ Hcast).
Qed.

Lemma post_books_adds_witness :
  ∃ id b,
    body (post_books 1 (Some " Emma ") (Some "Jane Austen") (Some "A novel")
            None (Some 10) seedDB).2 = JBook (id, b)
    ∧ books seedDB !! id = None
    ∧ books (post_books 1 (Some " Emma ") (Some "Jane Austen") (Some "A novel")
               None (Some 10) seedDB).1 = <[id := b]> (books seedDB)
    ∧ get_book id
        (post_books 1 (Some " Emma ") (Some "Jane Austen") (Some "A novel")
           None (Some 10) seedDB).1
      = ((post_books 1 (Some " Emma ") (Some "Jane Austen") (Some "A novel")
            None (Some 10) seedDB).1, mkResponse 200 (JBook (id, b))).
Proof.
  apply (proj2 (post_books_adds 1 (Some " Emma ") (Some "Jane Austen")
                  (Some "A novel") None (Some 10) seedDB)).
  vm_compute. reflexivity.
Defined.

(** X15.  Deleting a book, for an administrator: a book that is not in
    the catalogue gives 404 and no write; a book that is there is removed
    and no other book is, and the carts are left as they are, lines that
    reference the book included.  In the store the delete leaves, reading
    that book and adding it to any cart both answer 404 "Book not found",
    the latter without a write. *)
Theorem delete_book_removes uid id db :
  is_admin db uid →
  (books db !! id = None →
   delete_book uid id db = (db, mkResponse 404 (JMessage "Book not found")))
  ∧ (is_Some (books db !! id) →
     let db' := (delete_book uid id db).1 in
     code (delete_book uid id db).2 = 200
     ∧ books db' = delete id (books db)
     ∧ carts db' = carts db
     ∧ get_book id db' = (db', mkResponse 404 (JMessage "Book not found"))
     ∧ ∀ u quantity,
         post_cart_add u id quantity db'
         = (db', mkResponse 404 (JMessage "Book not found"))).
Proof.
  intros Ha. rewrite !delete_book_eq by done. split.
  - by intros ->.
  - intros [book ->]. simpl. split_and!; try done.
    + rewrite get_book_eq. simpl. by rewrite lookup_delete_eq.
    + intros u q. rewrite post_cart_add_eq. simpl. by rewrite lookup_delete_eq.
Qed.

Lemma delete_book_removes_witness :
  post_cart_add 1 1 (Some 2) demoDB_delisted
  = (demoDB_delisted, mkResponse 404 (JMessage "Book not found"))
  ∧ delete_book 1 9 demoDB = (demoDB, mkResponse 404 (JMessage "Book not found")).
Proof.
  assert (is_admin demoDB 1) as Hadm
    by (exists (User.mk true); split; vm_compute; reflexivity).
  split.
  - apply (proj2 (delete_book_removes 1 1 demoDB Hadm)).
    exists (Book.mk "Persuasion" "Jane Austen" "A novel" (Some "") 5).
    vm_compute. reflexivity.
  - apply (proj1 (delete_book_removes 1 9 demoDB Hadm)). vm_compute. reflexivity.
Defined.

(** ** Reading orders back *)

(** X16.  A placed order can be read back by its owner and by nobody
    else: when place order answers 201 with an order under some id, a get
    of that id by the same user answers 200 with exactly that order, and
    a get of that id by any other user answers 404. *)
Theorem placed_order_readable uid a m db id order :
  code (post_orders uid a m db).2 = 201 →
  body (post_orders uid a m db).2 = JOrder id order →
  let db' := (post_orders uid a m db).1 in
  get_order uid id db'
  = (db', mkResponse 200
            (JOrderPopulated id order
               (cards db' (OrderItem.book <$> Order.items order))))
  ∧ ∀ u, u ≠ uid →
      get_order u id db' = (db', mkResponse 404 (JMessage "Order not found")).
Proof.
  rewrite (post_orders_eq uid a m).
  destruct (carts db !! uid) as [cart|]; [|done].
  destruct (_ =? _)%nat; [done|].
  destruct (mapExn _ _) as [e|orderItems]; [done|]. cbv zeta.
  destruct (validateOrder _); [|done]. simpl. intros _ [= <- <-].
  rewrite !get_order_eq. simpl. rewrite lookup_insert_eq. simpl.
  rewrite N.eqb_refl. split; [done|].
  intros u Hu. rewrite get_order_eq. simpl. rewrite lookup_insert_eq. simpl.
  by apply not_eq_sym, N.eqb_neq in Hu as ->.
Qed.

Lemma placed_order_readable_witness :
  code (get_order 1 0 demoDB_ordered).2 = 200
  ∧ get_order 2 0 demoDB_ordered
    = (demoDB_ordered, mkResponse 404 (JMessage "Order not found")).
Proof.
  destruct (post_orders 1 (Some demoAddress) (Some "paypal") demoDB)
    as [db' [c b]] eqn:E.
  assert (c = 201) as Hc by (vm_compute in E; by injection E as _ <- _).
  destruct b as [| | | | |id order| | |]; try (vm_compute in E; discriminate E).
  assert (id = 0%N) as -> by (vm_compute in E; by injection E as _ _ <- _).
  pose proof (placed_order_readable 1 (Some demoAddress) (Some "paypal") demoDB
                0 order) as H.
  rewrite E in H. simpl in H. specialize (H Hc eq_refl) as [H1 H2].
  unfold demoDB_ordered. rewrite E. simpl. split.
  - by rewrite H1.
  - apply H2. discriminate.
Defined.

(** X17.  The last status wins, and only the status changes: for a stored
    order that passes the order schema and two statuses among pending,
    processing, shipped, delivered, setting the first and then the second
    leaves the store that setting the second alone leaves; the order
    stored under the id then has the second status and the user, lines,
    total, address, payment method and tracking number it had; its owner
    reads exactly that order back, and no other order has changed. *)
Theorem status_last_wins id s s' db order :
  orders db !! id = Some order → validateOrder order = true →
  includes assignableStatuses s = true →
  includes assignableStatuses s' = true →
  let db1 := (put_order_status id (Some s) db).1 in
  let db2 := (put_order_status id (Some s') db1).1 in
  let order' :=
    Order.mk (Order.user order) (Order.items order) (Order.totalAmount order)
      (Order.shippingAddress order) (Order.paymentMethod order) s'
      (Order.trackingNumber order) in
  db2 = (put_order_status id (Some s') db).1
  ∧ orders db2 !! id = Some order'
  ∧ get_order (Order.user order) id db2
    = (db2, mkResponse 200
              (JOrderPopulated id order'
                 (cards db2 (OrderItem.book <$> Order.items order))))
  ∧ ∀ id', id' ≠ id → orders db2 !! id' = orders db !! id'.
Proof.
  intros Ho Hv Hs Hs'. cbv zeta.
  change (Order.mk (Order.user order) (Order.items order)
            (Order.totalAmount order) (Order.shippingAddress order)
            (Order.paymentMethod order) s' (Order.trackingNumber order))
    with (setStatus (setStatus order s) s').
  rewrite !(put_order_status_eq id (Some _) db), Hs, Hs', Ho. simpl.
  rewrite !validateOrder_setStatus by done. simpl.
  rewrite put_order_status_eq, Hs'. simpl. rewrite lookup_insert_eq.
  rewrite (validateOrder_setStatus (setStatus order s) s'
             (validateOrder_setStatus order s Hv Hs) Hs').
  simpl. unfold set_orders at 1. simpl. rewrite insert_insert_eq.
  split_and!.
  - done.
  - by rewrite lookup_insert_eq.
  - rewrite get_order_eq. simpl. rewrite lookup_insert_eq. simpl.
    by rewrite N.eqb_refl.
  - intros id' Hne. simpl. by rewrite lookup_insert_ne.
Qed.

Lemma status_last_wins_witness :
  (put_order_status 0 (Some "delivered")
     (put_order_status 0 (Some "shipped") demoDB_ordered).1).1
  = (put_order_status 0 (Some "delivered") demoDB_ordered).1
  ∧ ∃ order, orders (put_order_status 0 (Some "delivered")
                       (put_order_status 0 (Some "shipped") demoDB_ordered).1).1
               !! 0%N = Some order
             ∧ Order.status order = "delivered"
             ∧ Order.totalAmount order = 25.
Proof.
  destruct (orders demoDB_ordered !! 0%N) as [order|] eqn:E;
    [|vm_compute in E; discriminate].
  assert (validateOrder order = true ∧ Order.totalAmount order = 25) as [Hv Ht]
    by (vm_compute in E; injection E as <-; split; reflexivity).
  destruct (status_last_wins 0 "shipped" "delivered" demoDB_ordered order
              E Hv eq_refl eq_refl) as (Hsame & Hstored & _).
  split; [exact Hsame|].
  eexists. split; [exact Hstored|]. split; [reflexivity | exact Ht].
Defined.

(** * Saved books *)

Lemma SavedBook_findOne_None uid book saved :
  SavedBook_findOne uid book saved = None ↔ ¬ has_saved saved uid book.
Proof.
  unfold SavedBook_findOne, has_saved. rewrite head_None. split.
  - intros Hnil (id & entry & Hl & Hu & Hb).
    eapply (filter_nil_not_elem_of _ _ (id, entry)); [exact Hnil | done |].
    by apply elem_of_map_to_list.
  - intros Hn. destruct (filter _ _) as [|[id entry] l] eqn:E; [done|].
    destruct Hn. exists id, entry.
    assert ((id, entry) ∈ filter (λ entry, SavedBook.user entry.2 = uid
                                           ∧ SavedBook.book entry.2 = book)
                             (map_to_list saved)) as Hin
      by (rewrite E; apply list_elem_of_here).
    apply list_elem_of_filter in Hin as [[Hu Hb] Hin].
    apply elem_of_map_to_list in Hin. done.
Qed.

Lemma post_saved_book_dup catalogue uid book saved :
  has_saved saved uid book →
  post_saved_book catalogue uid book saved
  = (saved, mkSaved 400 (SMessage "Book already saved")).
Proof.
  intros H. unfold post_saved_book.
  destruct (SavedBook_findOne uid book saved) eqn:E; [done|].
  by apply SavedBook_findOne_None in E.
Qed.

Lemma post_saved_book_new catalogue uid book saved :
  ¬ has_saved saved uid book →
  let id := fresh (dom saved) in
  let saved' := <[id := SavedBook.mk book uid]> saved in
  post_saved_book catalogue uid book saved
  = (saved', mkSaved 201
               (SPopulated (SavedBook_findPopulated catalogue id saved'))).
Proof.
  intros H. unfold post_saved_book.
  by apply SavedBook_findOne_None in H as ->.
Qed.

Lemma has_saved_insert saved id uid book :
  has_saved (<[id := SavedBook.mk book uid]> saved) uid book.
Proof. exists id, (SavedBook.mk book uid). by rewrite lookup_insert_eq. Qed.

(** X18.  A save succeeds exactly when the user has not saved that book
    yet, whether or not the book is in the catalogue: the answer is then
    201 and the collection grows by one entry, under an id that was free,
    for that user and that book; otherwise the answer is 400 "Book
    already saved" and nothing is written.  In particular saving the same
    book a second time is refused. *)
Theorem save_book_once catalogue uid book saved :
  let res := post_saved_book catalogue uid book saved in
  (has_saved saved uid book →
   res = (saved, mkSaved 400 (SMessage "Book already saved")))
  ∧ (¬ has_saved saved uid book →
     saved_code res.2 = 201
     ∧ saved !! fresh (dom saved) = None
     ∧ res.1 = <[fresh (dom saved) := SavedBook.mk book uid]> saved)
  ∧ post_saved_book catalogue uid book res.1
    = (res.1, mkSaved 400 (SMessage "Book already saved")).
Proof.
  cbv zeta. split_and!.
  - apply post_saved_book_dup.
  - intros Hn. rewrite post_saved_book_new by done. simpl.
    split_and!; [done | | done]. apply not_elem_of_dom, is_fresh.
  - destruct (SavedBook_findOne uid book saved) as [e|] eqn:E.
    + assert (post_saved_book catalogue uid book saved
              = (saved, mkSaved 400 (SMessage "Book already saved"))) as Hdup
        by (unfold post_saved_book; by rewrite E).
      by rewrite !Hdup.
    + apply SavedBook_findOne_None in E. apply post_saved_book_dup.
      rewrite post_saved_book_new by done. apply has_saved_insert.
Qed.

Lemma save_book_once_witness :
  post_saved_book ∅ 1 5 demoSaved
  = (demoSaved, mkSaved 400 (SMessage "Book already saved"))
  ∧ saved_code (post_saved_book ∅ 2 5 demoSaved).2 = 201.
Proof.
  split.
  - apply (proj1 (save_book_once ∅ 1 5 demoSaved)).
    exists 0%N, (SavedBook.mk 5 1). split; [|done]. vm_compute. reflexivity.
  - apply (proj1 (proj2 (save_book_once ∅ 2 5 demoSaved))).
    intros (id & entry & Hl & Hu & Hb).
    unfold demoSaved in Hl.
    apply lookup_singleton_Some in Hl as [_ <-]. discriminate Hu.
Defined.

Lemma saved_once_insert saved uid book :
  saved_once saved → ¬ has_saved saved uid book →
  saved_once (<[fresh (dom saved) := SavedBook.mk book uid]> saved).
Proof.
  intros Hu Hn i j x y. rewrite !lookup_insert.
  repeat case_decide; subst; try done.
  - intros [= <-] Hy Heq1 Heq2. destruct Hn. exists j, y. by simpl in *.
  - intros Hx [= <-] Heq1 Heq2. destruct Hn. exists i, x. by simpl in *.
  - apply Hu.
Qed.

Lemma saved_once_delete saved id : saved_once saved → saved_once (delete id saved).
Proof.
  intros Hu i j x y Hx Hy. apply lookup_delete_Some in Hx as [_ Hx].
  apply lookup_delete_Some in Hy as [_ Hy]. by apply Hu.
Qed.

Lemma handle_saved_once catalogue req saved :
  saved_once saved → saved_once (handle_saved catalogue req saved).1.
Proof.
  intros Hu. destruct req as [uid book | uid id]; simpl.
  - unfold post_saved_book.
    destruct (SavedBook_findOne uid book saved) eqn:E; [done|].
    apply SavedBook_findOne_None in E. by apply saved_once_insert.
  - unfold delete_saved_book. destruct (saved !! id) as [x|]; [|done].
    destruct (negb _); [done|]. by apply saved_once_delete.
Qed.

(** X19.  No user ever has two entries for the same book: starting from a
    collection in which that holds, the empty one for instance, it holds
    after any sequence of save and remove requests. *)
Theorem served_saved_once reqs saved :
  saved_once saved → saved_once (serve_saved reqs saved).
Proof.
  unfold serve_saved. revert saved.
  induction reqs as [|[catalogue req] reqs IH]; intros saved Hu; simpl; [done|].
  apply IH. by apply handle_saved_once.
Qed.

Lemma served_saved_once_witness :
  saved_once (serve_saved [(∅, SaveBook 1 5); (∅, SaveBook 1 5);
                           (∅, SaveBook 2 5); (∅, UnsaveBook 1 0);
                           (∅, SaveBook 1 5)] ∅).
Proof.
  apply served_saved_once.
  intros i j x y H. by rewrite lookup_empty in H.
Defined.

Lemma handle_saved_other catalogue req saved id entry :
  saved !! id = Some entry → saved_requester req ≠ SavedBook.user entry →
  (handle_saved catalogue req saved).1 !! id = Some entry.
Proof.
  intros Hl Hne. destruct req as [uid book | uid id']; simpl in *.
  - unfold post_saved_book.
    destruct (SavedBook_findOne uid book saved); [done|]. cbn [fst].
    rewrite lookup_insert_ne; [done|]. intros Heq.
    apply (is_fresh (dom saved)). rewrite Heq. apply elem_of_dom. eauto.
  - unfold delete_saved_book. destruct (saved !! id') as [x|] eqn:E; [|done].
    destruct (N.eqb_spec (SavedBook.user x) uid) as [Heq|Hneq]; [|done].
    cbn [negb fst]. rewrite lookup_delete_ne; [done|].
    intros ->. rewrite Hl in E. injection E as <-. done.
Qed.

(** X20.  Only the owner removes an entry.  A remove of an id that is not
    in the collection answers 404 and a remove by a user other than the
    entry's answers 403, both without a write; a remove by the owner
    answers 200 and deletes that entry and no other; and whatever
    requests other users send, an entry is still there after all of
    them. *)
Theorem unsave_book_owner_only :
  (∀ uid id saved,
     (saved !! id = None →
      delete_saved_book uid id saved
      = (saved, mkSaved 404 (SMessage "Saved book not found")))
     ∧ (∀ entry, saved !! id = Some entry → SavedBook.user entry ≠ uid →
          delete_saved_book uid id saved
          = (saved, mkSaved 403
                      (SMessage "Not authorized to remove this saved book")))
     ∧ (∀ entry, saved !! id = Some entry → SavedBook.user entry = uid →
          delete_saved_book uid id saved
          = (delete id saved,
             mkSaved 200 (SMessage "Book removed from saved list successfully"))
          ∧ ∀ j, j ≠ id → delete id saved !! j = saved !! j))
  ∧ (∀ reqs saved id entry,
       saved !! id = Some entry →
       Forall (λ r, saved_requester r.2 ≠ SavedBook.user entry) reqs →
       serve_saved reqs saved !! id = Some entry).
Proof.
  split.
  - intros uid id saved. unfold delete_saved_book. split_and!.
    + by intros ->.
    + intros entry -> Hne. by apply N.eqb_neq in Hne as ->.
    + intros entry -> <-. rewrite N.eqb_refl. split; [done|].
      intros j Hj. by rewrite lookup_delete_ne.
  - intros reqs. unfold serve_saved.
    induction reqs as [|[catalogue req] reqs IH]; intros saved id entry Hl Hall;
      simpl; [done|].
    apply Forall_cons in Hall as [Hreq Hall].
    apply IH; [|done]. by apply handle_saved_other.
Qed.

Lemma unsave_book_owner_only_witness :
  delete_saved_book 2 0 demoSaved
  = (demoSaved, mkSaved 403 (SMessage "Not authorized to remove this saved book"))
  ∧ serve_saved [(∅, UnsaveBook 2 0); (∅, SaveBook 2 5)] demoSaved !! 0%N
    = Some (SavedBook.mk 5 1).
Proof.
  destruct unsave_book_owner_only as [Hstep Hseq]. split.
  - apply (proj1 (proj2 (Hstep 2%N 0%N demoSaved)) (SavedBook.mk 5 1)).
    + vm_compute. reflexivity.
    + discriminate.
  - apply Hseq; [vm_compute; reflexivity|].
    repeat (apply Forall_cons; split; [discriminate|]). apply Forall_nil_2.
Defined.

(** X21.  Saving and removing undo each other: when the user has not
    saved the book, saving it and then removing the entry of the answer
    gives back exactly the collection before the save. *)
Theorem save_then_unsave catalogue uid book saved :
  ¬ has_saved saved uid book →
  let res := post_saved_book catalogue uid book saved in
  ∃ id entry populated,
    saved_body res.2 = SPopulated (Some (id, entry, populated))
    ∧ delete_saved_book uid id res.1
      = (saved, mkSaved 200
                  (SMessage "Book removed from saved list successfully")).
Proof.
  intros Hn. cbv zeta. rewrite post_saved_book_new by done. simpl.
  unfold SavedBook_findPopulated. rewrite lookup_insert_eq. simpl.
  eexists _, _, _. split; [done|].
  unfold delete_saved_book. rewrite lookup_insert_eq. simpl.
  rewrite N.eqb_refl. simpl.
  rewrite delete_insert_id; [done|]. apply not_elem_of_dom, is_fresh.
Qed.

Lemma save_then_unsave_witness :
  ∃ id entry populated,
    saved_body (post_saved_book ∅ 1 5 {[ 0%N := SavedBook.mk 5 2 ]}).2
    = SPopulated (Some (id, entry, populated))
    ∧ delete_saved_book 1 id
        (post_saved_book ∅ 1 5 {[ 0%N := SavedBook.mk 5 2 ]}).1
      = ({[ 0%N := SavedBook.mk 5 2 ]},
         mkSaved 200 (SMessage "Book removed from saved list successfully")).
Proof.
  apply (save_then_unsave ∅ 1 5 {[ 0%N := SavedBook.mk 5 2 ]}).
  intros (id & entry & Hl & Hu & Hb).
  unfold demoSaved in Hl.
    apply lookup_singleton_Some in Hl as [_ <-]. discriminate Hu.
Defined.

(** * Reviews *)

Lemma validateReview_range review :
  validateReview review = true ↔
  (1 <= Review.rating review)%Q ∧ (Review.rating review <= 5)%Q.
Proof.
  unfold validateReview. by rewrite andb_true_iff, !Qle_bool_iff.
Qed.

Lemma ratings_in_range_insert reviews id review :
  ratings_in_range reviews → validateReview review = true →
  ratings_in_range (<[id := review]> reviews).
Proof.
  intros Hr Hv j x. rewrite lookup_insert. case_decide.
  - intros [= <-]. by apply validateReview_range.
  - apply Hr.
Qed.

Lemma ratings_in_range_delete reviews id :
  ratings_in_range reviews → ratings_in_range (delete id reviews).
Proof.
  intros Hr j x Hx. apply lookup_delete_Some in Hx as [_ Hx]. by apply (Hr j).
Qed.

Lemma handle_review_range usernames catalogue req reviews :
  ratings_in_range reviews →
  ratings_in_range (handle_review usernames catalogue req reviews).1.
Proof.
  intros Hr. destruct req as [uid book rating comment | uid id rating comment
                              | uid id]; simpl.
  - unfold post_review. destruct rating as [r|]; [|done].
    unfold Review_insert. destruct (validateReview _) eqn:Hv; [|done]. simpl.
    case_bool_decide; [done|]. simpl. by apply ratings_in_range_insert.
  - unfold put_review. destruct (reviews !! id) as [review|]; [|done].
    destruct (negb (N.eqb _ _)); [done|].
    unfold Review_update. destruct (validateReview _) eqn:Hv; [|done]. simpl.
    by apply ratings_in_range_insert.
  - unfold delete_review. destruct (reviews !! id) as [review|]; [|done].
    destruct (negb _); [done|]. by apply ratings_in_range_delete.
Qed.

(** X22.  Every stored rating lies between 1 and 5: starting from a
    collection in which that holds, the empty one for instance, it holds
    after any sequence of create, update and delete requests, whatever
    ratings they carry. *)
Theorem served_ratings_in_range usernames catalogue reqs reviews id review :
  ratings_in_range reviews →
  serve_reviews usernames catalogue reqs reviews !! id = Some review →
  (1 <= Review.rating review)%Q ∧ (Review.rating review <= 5)%Q.
Proof.
  unfold serve_reviews. revert reviews.
  induction reqs as [|req reqs IH]; intros reviews Hr; simpl.
  - apply Hr.
  - apply IH. by apply handle_review_range.
Qed.

Lemma served_ratings_in_range_witness :
  (1 <= 9 # 2)%Q ∧ (9 # 2 <= 5)%Q.
Proof.
  apply (served_ratings_in_range ∅ ∅
           [ReviewCreate 1 5 (Some (7 # 1)) None;
            ReviewCreate 1 5 (Some (3 # 1)) (Some "fine");
            ReviewUpdate 1 0 (Some (9 # 2)) None;
            ReviewUpdate 1 0 (Some (0 # 1)) None;
            ReviewUpdate 1 0 (Some (11 # 2)) (Some "better")]
           ∅ 0%N (Review.mk 5 1 (9 # 2) (Some "fine"))).
  - intros id review H. by rewrite lookup_empty in H.
  - vm_compute. reflexivity.
Defined.

Lemma reviewed_lookup reviews uid book :
  reviewed reviews uid book ↔
  ∃ id review, reviews !! id = Some review
               ∧ Review.user review = uid ∧ Review.book review = book.
Proof.
  unfold reviewed. rewrite map_Exists_lookup. naive_solver.
Qed.

Lemma reviewed_once_insert reviews id review :
  reviewed_once reviews →
  ¬ reviewed reviews (Review.user review) (Review.book review) →
  reviewed_once (<[id := review]> reviews).
Proof.
  intros Hu Hn i j x y. rewrite !lookup_insert.
  repeat case_decide; subst; try done.
  - intros [= <-] Hy Heq1 Heq2. destruct Hn. apply reviewed_lookup. by exists j, y.
  - intros Hx [= <-] Heq1 Heq2. destruct Hn. apply reviewed_lookup. by exists i, x.
  - apply Hu.
Qed.

Lemma reviewed_once_update reviews id old review :
  reviewed_once reviews → reviews !! id = Some old →
  Review.user review = Review.user old → Review.book review = Review.book old →
  reviewed_once (<[id := review]> reviews).
Proof.
  intros Hu Hold Huser Hbook i j x y. rewrite !lookup_insert.
  repeat case_decide; subst; try done.
  - intros [= <-] Hy Heq1 Heq2. apply (Hu i j old y); congruence.
  - intros Hx [= <-] Heq1 Heq2. apply (Hu i j x old); congruence.
  - apply Hu.
Qed.

Lemma reviewed_once_delete reviews id :
  reviewed_once reviews → reviewed_once (delete id reviews).
Proof.
  intros Hu i j x y Hx Hy. apply lookup_delete_Some in Hx as [_ Hx].
  apply lookup_delete_Some in Hy as [_ Hy]. by apply Hu.
Qed.

Lemma handle_review_once usernames catalogue req reviews :
  reviewed_once reviews →
  reviewed_once (handle_review usernames catalogue req reviews).1.
Proof.
  intros Hu. destruct req as [uid book rating comment | uid id rating comment
                              | uid id]; simpl.
  - unfold post_review. destruct rating as [r|]; [|done].
    unfold Review_insert. destruct (validateReview _); [|done]. simpl.
    case_bool_decide as Hd; [done|]. simpl. by apply reviewed_once_insert.
  - unfold put_review. destruct (reviews !! id) as [review|] eqn:E; [|done].
    destruct (negb (N.eqb _ _)); [done|].
    unfold Review_update. destruct (validateReview _); [|done]. simpl.
    by apply (reviewed_once_update reviews id review).
  - unfold delete_review. destruct (reviews !! id) as [review|]; [|done].
    destruct (negb _); [done|]. by apply reviewed_once_delete.
Qed.

(** X23.  One review per user and book.  A create for a book the user has
    already reviewed is answered 400 "Error creating review" and writes
    nothing, whatever rating and comment it carries; and starting from a
    collection in which no user has two reviews of one book, none has
    after any sequence of create, update and delete requests. *)
Theorem one_review_per_book usernames catalogue :
  (∀ uid book rating comment reviews,
     reviewed reviews uid book →
     (post_review usernames catalogue uid book rating comment reviews).1 = reviews
     ∧ review_code
         (post_review usernames catalogue uid book rating comment reviews).2
       = 400)
  ∧ (∀ reqs reviews,
       reviewed_once reviews →
       reviewed_once (serve_reviews usernames catalogue reqs reviews)).
Proof.
  split.
  - intros uid book rating comment reviews Hrev. unfold post_review.
    destruct rating as [r|]; [|done].
    unfold Review_insert. destruct (validateReview _); [|done]. simpl.
    by rewrite bool_decide_eq_true_2.
  - intros reqs. unfold serve_reviews.
    induction reqs as [|req reqs IH]; intros reviews Hu; simpl; [done|].
    apply IH. by apply handle_review_once.
Qed.

Lemma one_review_per_book_witness :
  post_review ∅ ∅ 1 5 (Some (4 # 1)) None demoReviews
  = (demoReviews,
     mkReview 400 (RError "Error creating review" ReviewDuplicateKey)).
Proof.
  destruct (proj1 (one_review_per_book ∅ ∅) 1%N 5%N (Some (4 # 1)) None
              demoReviews) as [H1 H2].
  - apply reviewed_lookup. exists 0%N, (Review.mk 5 1 (3 # 1) (Some "fine")).
    split; [|done]. vm_compute. reflexivity.
  - vm_compute. reflexivity.
Defined.

Lemma handle_review_other usernames catalogue req reviews id review :
  reviews !! id = Some review → review_requester req ≠ Review.user review →
  (handle_review usernames catalogue req reviews).1 !! id = Some review.
Proof.
  intros Hl Hne.
  destruct req as [uid book rating comment | uid id' rating comment
                   | uid id']; simpl in *.
  - unfold post_review. destruct rating as [r|]; [|done].
    unfold Review_insert. destruct (validateReview _); [|done]. cbn [negb].
    case_bool_decide; [done|]. cbn [fst].
    rewrite lookup_insert_ne; [done|]. intros Heq.
    apply (is_fresh (dom reviews)). rewrite Heq. apply elem_of_dom. eauto.
  - unfold put_review. destruct (reviews !! id') as [x|] eqn:E; [|done].
    destruct (N.eqb_spec (Review.user x) uid) as [Heq|Hneq]; [|done].
    cbn [negb]. unfold Review_update. destruct (validateReview _); [|done].
    cbn [negb fst]. rewrite lookup_insert_ne; [done|].
    intros ->. rewrite Hl in E. injection E as <-. done.
  - unfold delete_review. destruct (reviews !! id') as [x|] eqn:E; [|done].
    destruct (N.eqb_spec (Review.user x) uid) as [Heq|Hneq]; [|done].
    cbn [negb fst]. rewrite lookup_delete_ne; [done|].
    intros ->. rewrite Hl in E. injection E as <-. done.
Qed.

(** X24.  Only the author changes or deletes a review.  An update or a
    delete sent by any other user is answered 403, and for an id that is
    not in the collection 404, without a write; and whatever requests
    other users send, creates included, a stored review is still there,
    unchanged, after all of them. *)
Theorem review_author_only usernames catalogue :
  (∀ uid id rating comment reviews,
     (reviews !! id = None →
      put_review usernames catalogue uid id rating comment reviews
      = (reviews, mkReview 404 (RMessage "Review not found"))
      ∧ delete_review uid id reviews
        = (reviews, mkReview 404 (RMessage "Review not found")))
     ∧ (∀ review, reviews !! id = Some review → Review.user review ≠ uid →
          put_review usernames catalogue uid id rating comment reviews
          = (reviews,
             mkReview 403 (RMessage "Not authorized to update this review"))
          ∧ delete_review uid id reviews
            = (reviews,
               mkReview 403 (RMessage "Not authorized to delete this review"))))
  ∧ (∀ reqs reviews id review,
       reviews !! id = Some review →
       Forall (λ req, review_requester req ≠ Review.user review) reqs →
       serve_reviews usernames catalogue reqs reviews !! id = Some review).
Proof.
  split.
  - intros uid id rating comment reviews. unfold put_review, delete_review. split.
    + by intros ->.
    + intros review -> Hne. by apply N.eqb_neq in Hne as ->.
  - intros reqs. unfold serve_reviews.
    induction reqs as [|req reqs IH]; intros reviews id review Hl Hall; simpl.
    + done.
    + apply Forall_cons in Hall as [Hreq Hall].
      apply IH; [|done]. by apply handle_review_other.
Qed.

Lemma review_author_only_witness :
  delete_review 2 0 demoReviews
  = (demoReviews,
     mkReview 403 (RMessage "Not authorized to delete this review"))
  ∧ serve_reviews ∅ ∅
      [ReviewDelete 2 0; ReviewUpdate 3 0 (Some (1 # 1)) (Some "bad");
       ReviewCreate 2 5 (Some (2 # 1)) None] demoReviews !! 0%N
    = Some (Review.mk 5 1 (3 # 1) (Some "fine")).
Proof.
  destruct (review_author_only ∅ ∅) as [Hstep Hseq]. split.
  - apply (proj2 (Hstep 2%N 0%N None None demoReviews)
             (Review.mk 5 1 (3 # 1) (Some "fine"))).
    + vm_compute. reflexivity.
    + discriminate.
  - apply Hseq; [vm_compute; reflexivity|].
    repeat (apply Forall_cons; split; [discriminate|]). apply Forall_nil_2.
Defined.

(** X25.  What an update by the author does to a stored review that
    passes the schema.  The book and the user never change.  A rating that
    is absent or 0 keeps the stored rating; any other rating replaces it
    when it lies between 1 and 5 and is refused with 400 "Error updating
    review", writing nothing, when it does not.  A comment that is absent
    or empty keeps the stored comment, trimmed; any other comment
    replaces it by its trimmed text, so that a comment of white space
    only empties the stored comment. *)
Theorem put_review_effect usernames catalogue id rating comment reviews review :
  reviews !! id = Some review →
  validateReview review = true →
  let res := put_review usernames catalogue (Review.user review) id rating
               comment reviews in
  (∀ review', res.1 !! id = Some review' →
     Review.book review' = Review.book review
     ∧ Review.user review' = Review.user review)
  ∧ ((rating = None ∨ ∃ r, rating = Some r ∧ Qeq_bool r 0 = true) →
     review_code res.2 = 200
     ∧ ∃ review', res.1 = <[id := review']> reviews
                  ∧ Review.rating review' = Review.rating review)
  ∧ (∀ r, rating = Some r → Qeq_bool r 0 = false →
       if Qle_bool 1 r && Qle_bool r 5
       then review_code res.2 = 200
            ∧ ∃ review', res.1 = <[id := review']> reviews
                         ∧ Review.rating review' = r
       else res = (reviews,
                   mkReview 400
                     (RError "Error updating review" ReviewValidationError)))
  ∧ (∀ review', review_code res.2 = 200 → res.1 !! id = Some review' →
       ((comment = None ∨ comment = Some "") →
        Review.comment review' = trim <$> Review.comment review)
       ∧ (∀ c, comment = Some c → c ≠ "" →
            Review.comment review' = Some (trim c))).
Proof.
  intros Hl Hv. cbv zeta. unfold put_review. rewrite Hl, N.eqb_refl. simpl.
  unfold Review_update. split_and!.
  - destruct (validateReview (Review.mk _ _ _ _)); cbn [negb fst].
    + rewrite lookup_insert_eq. by intros review' [= <-].
    + rewrite Hl. by intros review' [= <-].
  - intros Hr.
    assert (rating_or rating (Review.rating review) = Review.rating review)
      as -> by (destruct Hr as [-> | (r & -> & Hz)]; simpl; by rewrite ?Hz).
    unfold validateReview in *. cbn [Review.rating]. rewrite Hv. simpl.
    split; [done|]. eexists. split; done.
  - intros r -> Hnz. simpl. rewrite Hnz. unfold validateReview. simpl.
    destruct (Qle_bool 1 r && Qle_bool r 5); simpl; [|done].
    split; [done|]. eexists. split; done.
  - intros review'.
    destruct (validateReview (Review.mk _ _ _ _)); cbn [negb fst snd review_code];
      [|done].
    intros _. rewrite lookup_insert_eq. intros [= <-]. cbn [Review.comment].
    unfold comment_or. split.
    + by intros [-> | ->].
    + intros c -> Hc. simpl. by destruct c.
Qed.

Lemma put_review_effect_witness :
  ∃ review',
    (put_review ∅ ∅ 1 0 (Some (0 # 1)) (Some " ") demoReviews).1 !! 0%N
    = Some review'
    ∧ Review.rating review' = (3 # 1)%Q
    ∧ Review.comment review' = Some "".
Proof.
  destruct ((put_review ∅ ∅ 1 0 (Some (0 # 1)) (Some " ") demoReviews).1 !! 0%N)
    as [review'|] eqn:E; [|vm_compute in E; discriminate].
  pose proof (put_review_effect ∅ ∅ 0 (Some (0 # 1)) (Some " ") demoReviews
                (Review.mk 5 1 (3 # 1) (Some "fine"))
                ltac:(vm_compute; reflexivity) eq_refl)
    as (_ & Hkeep & _ & Hcomment).
  destruct Hkeep as (Hcode & stored & Hstore & Hrating);
    [right; by exists (0 # 1) |].
  exists review'. split; [done|]. split.
  - change (put_review ∅ ∅ (Review.user (Review.mk 5 1 (3 # 1) (Some "fine")))
              0 (Some (0 # 1)) (Some " ") demoReviews)
      with (put_review ∅ ∅ 1 0 (Some (0 # 1)) (Some " ") demoReviews)
      in Hstore.
    rewrite Hstore, lookup_insert_eq in E. injection E as <-. exact Hrating.
  - apply (proj2 (Hcomment review' Hcode E) " " eq_refl). discriminate.
Defined.

(** X26.  A review can be read back once created and no longer once
    deleted: when a create answers 201, a review of that book by that
    user with the rating of the request is stored under an id that was
    free, a get of that id answers 200 with the body of the create, and
    once the author has deleted it a get of that id answers 404. *)
Theorem review_round_trip usernames catalogue uid book rating comment reviews :
  let res := post_review usernames catalogue uid book rating comment reviews in
  review_code res.2 = 201 →
  ∃ id review,
    reviews !! id = None
    ∧ res.1 = <[id := review]> reviews
    ∧ Review.user review = uid ∧ Review.book review = book
    ∧ rating = Some (Review.rating review)
    ∧ get_review usernames catalogue id res.1 = mkReview 200 (review_body res.2)
    ∧ (delete_review uid id res.1).1 = reviews
    ∧ get_review usernames catalogue id (delete_review uid id res.1).1
      = mkReview 404 (RMessage "Review not found").
Proof.
  cbv zeta. unfold post_review. destruct rating as [r|]; [|done].
  unfold Review_insert. destruct (validateReview _); [|done]. cbn [negb].
  case_bool_decide; [done|]. cbn [fst snd review_code review_body]. intros _.
  assert (reviews !! fresh (dom reviews) = None) as Hfresh
    by apply not_elem_of_dom, is_fresh.
  exists (fresh (dom reviews)), (Review.mk book uid r (trim <$> comment)).
  unfold get_review, delete_review, Review_findPopulated.
  rewrite lookup_insert_eq. cbn [Review.user mbind option_bind].
  rewrite N.eqb_refl. cbn [negb fst].
  rewrite delete_insert_id by done. rewrite Hfresh.
  split_and!; done.
Qed.

Lemma review_round_trip_witness :
  ∃ id review,
    (∅ : gmap ObjectId Review.t) !! id = None
    ∧ (post_review ∅ ∅ 1 5 (Some (9 # 2)) (Some " good ") ∅).1
      = <[id := review]> ∅
    ∧ Review.user review = 1%N ∧ Review.book review = 5%N
    ∧ Some (9 # 2) = Some (Review.rating review)
    ∧ get_review ∅ ∅ id (post_review ∅ ∅ 1 5 (Some (9 # 2)) (Some " good ") ∅).1
      = mkReview 200
          (review_body (post_review ∅ ∅ 1 5 (Some (9 # 2)) (Some " good ") ∅).2)
    ∧ (delete_review 1 id
         (post_review ∅ ∅ 1 5 (Some (9 # 2)) (Some " good ") ∅).1).1 = ∅
    ∧ get_review ∅ ∅ id
        (delete_review 1 id
           (post_review ∅ ∅ 1 5 (Some (9 # 2)) (Some " good ") ∅).1).1
      = mkReview 404 (RMessage "Review not found").
Proof.
  apply (review_round_trip ∅ ∅ 1 5 (Some (9 # 2)) (Some " good ") ∅).
  vm_compute. reflexivity.
Defined.

(** * Deleting a user *)

Lemma delete_user_eq uid id db :
  is_admin db uid →
  delete_user uid id db =
  match users db !! id with
  | None => (db, mkResponse 404 (JMessage "User not found"))
  | Some userToDelete =>
      if User.isAdmin userToDelete
         && (size (filter (λ entry, User.isAdmin entry.2 = true) (users db))
             <=? 1)%nat
      then (db, mkResponse 400 (JMessage "Cannot delete the only admin account"))
      else if N.eqb id uid then
        (db, mkResponse 400 (JMessage "Cannot delete your own account"))
      else
        (set_users db (delete id (users db)),
         mkResponse 200 (JMessage "User deleted successfully"))
  end.
Proof.
  intros Ha. unfold delete_user. rewrite adminMiddleware_passed by done.
  unfold try_catch, mbind, M_bind, mret, M_ret, reply, User_findById,
    User_countAdmins, User_findByIdAndDelete.
  destruct (users db !! id) as [u|]; [|done].
  destruct (User.isAdmin u); simpl.
  - destruct (_ <=? 1)%nat; [done|]. by destruct (N.eqb id uid).
  - by destruct (N.eqb id uid).
Qed.

Lemma two_admins db uid id u :
  is_admin db uid → users db !! id = Some u → User.isAdmin u = true → id ≠ uid →
  (size (filter (λ entry, User.isAdmin entry.2 = true) (users db)) <=? 1)%nat
  = false.
Proof.
  intros (a & Ha & Haa) Hu Hua Hne. apply Nat.leb_gt.
  assert (({[ id := u ]} : gmap ObjectId User.t) !! uid = None) as Hnone
    by by rewrite lookup_singleton_ne.
  assert (size (<[uid := a]> ({[ id := u ]} : gmap ObjectId User.t)) = 2%nat) as Hsz
    by by rewrite map_size_insert_None, map_size_singleton.
  unfold lt. change (S 1) with 2%nat. rewrite <- Hsz. apply map_subseteq_size.
  apply map_subseteq_spec. intros j x. rewrite lookup_insert.
  case_decide as Hj; [intros [= <-]; subst j|].
  - by apply map_lookup_filter_Some.
  - intros Hx. apply lookup_singleton_Some in Hx as [<- <-].
    by apply map_lookup_filter_Some.
Qed.

Lemma delete_user_denied uid id db :
  ¬ is_admin db uid → delete_user uid id db = (db, accessDenied).
Proof. intros Hn. unfold delete_user. by apply adminMiddleware_denied. Qed.

(** X27.  What deleting a user touches.  Whoever asks and whatever the id,
    the only document that can disappear is the user with that id; books,
    carts and orders are left as they are, so the cart and the orders of
    a deleted user stay in the store.  A requester who is an
    administrator is still one afterwards, hence a store with an
    administrator keeps one; a requester who is not gets 403 and nothing
    is written. *)
Theorem delete_user_frame uid id db :
  let db' := (delete_user uid id db).1 in
  books db' = books db ∧ carts db' = carts db ∧ orders db' = orders db
  ∧ (∀ j, j ≠ id → users db' !! j = users db !! j)
  ∧ (is_admin db uid → is_admin db' uid)
  ∧ ((∃ u, is_admin db u) → ∃ u, is_admin db' u)
  ∧ (¬ is_admin db uid → delete_user uid id db = (db, accessDenied)).
Proof.
  cbv zeta.
  assert (¬ is_admin db uid ∨ is_admin db uid) as [Hn | Ha].
  { unfold is_admin. destruct (users db !! uid) as [u|] eqn:E.
    - destruct (User.isAdmin u) eqn:Ea; [right; by exists u|].
      left. intros (u' & [= <-] & Hu'). congruence.
    - left. by intros (u' & Hu' & _). }
  - rewrite delete_user_denied by done. split_and!; try done.
  - assert (is_admin (delete_user uid id db).1 uid) as Hkeep.
    { rewrite delete_user_eq by done.
      destruct (users db !! id) as [u|] eqn:E; [|done].
      destruct (_ && _); [done|].
      destruct (N.eqb_spec id uid) as [Heq|Hne]; [done|]. simpl.
      destruct Ha as (a & Hl & Haa). exists a. split; [|done].
      simpl. by rewrite lookup_delete_ne. }
    rewrite delete_user_eq in * by done.
    destruct (users db !! id) as [u|] eqn:E; [|split_and!; try done; by eauto].
    destruct (_ && _); [split_and!; try done; by eauto|].
    destruct (N.eqb id uid); [split_and!; try done; by eauto|].
    simpl in *. split_and!; try done.
    + intros j Hj. by rewrite lookup_delete_ne.
    + intros _. by exists uid.
Qed.

Lemma delete_user_frame_witness :
  is_admin (delete_user 1 1 demoDB_ordered).1 1
  ∧ delete_user 2 1 demoDB_ordered = (demoDB_ordered, accessDenied).
Proof.
  pose proof (delete_user_frame 1 1 demoDB_ordered) as (_ & _ & _ & _ & H1 & _).
  pose proof (delete_user_frame 2 1 demoDB_ordered) as (_ & _ & _ & _ & _ & _ & H2).
  split.
  - apply H1. exists (User.mk true). split; vm_compute; reflexivity.
  - apply H2. intros (u & Hu & _). vm_compute in Hu. discriminate Hu.
Defined.

(** X28.  What an administrator's delete of a user answers: 404 when no
    user has the id, 400 when the id is the administrator's own, in both
    cases writing nothing; and 200, with that user removed from the
    collection, for every other user, administrator or not. *)
Theorem delete_user_decided uid id db :
  is_admin db uid →
  (users db !! id = None →
   delete_user uid id db = (db, mkResponse 404 (JMessage "User not found")))
  ∧ (id = uid →
     (delete_user uid id db).1 = db ∧ code (delete_user uid id db).2 = 400)
  ∧ (is_Some (users db !! id) → id ≠ uid →
     delete_user uid id db
     = (set_users db (delete id (users db)),
        mkResponse 200 (JMessage "User deleted successfully"))).
Proof.
  intros Ha. rewrite !delete_user_eq by done. split_and!.
  - by intros ->.
  - intros ->. destruct Ha as (a & -> & Haa).
    destruct (_ && _); [done|]. by rewrite N.eqb_refl.
  - intros [u Hu] Hne. rewrite Hu.
    destruct (User.isAdmin u) eqn:Eu; simpl.
    + rewrite (two_admins db uid id u) by done.
      by apply N.eqb_neq in Hne as ->.
    + by apply N.eqb_neq in Hne as ->.
Qed.

Lemma delete_user_decided_witness :
  delete_user 1 4 demoDB = (demoDB, mkResponse 404 (JMessage "User not found"))
  ∧ code (delete_user 1 1 demoDB).2 = 400.
Proof.
  assert (is_admin demoDB 1) as Hadm
    by (exists (User.mk true); split; vm_compute; reflexivity).
  split.
  - apply (proj1 (delete_user_decided 1 4 demoDB Hadm)). vm_compute. reflexivity.
  - apply (proj1 (proj2 (delete_user_decided 1 1 demoDB Hadm))). reflexivity.
Defined.

(** * Order statuses *)

Lemma cart_request_keeps_orders uid req db :
  cart_request uid req → orders (handle req db).1 = orders db.
Proof.
  intros [-> | Hmut]; [|destruct Hmut]; simpl.
  - rewrite get_cart_eq. by destruct (carts db !! uid).
  - rewrite post_cart_add_eq. destruct (books db !! bookId); [|done].
    simpl. by destruct (validateCart _).
  - rewrite put_cart_update_eq. destruct (_ || _); [done|].
    destruct (carts db !! uid); [|done]. simpl. destruct (_ =? -1); [done|].
    by destruct (validateCart _).
  - rewrite delete_cart_remove_eq. destruct (carts db !! uid); [|done].
    simpl. by destruct (validateCart _).
  - rewrite delete_cart_clear_eq. by destruct (carts db !! uid).
Qed.


Lemma handle_statuses req db :
  statuses_assignable db → statuses_assignable (handle req db).1.
Proof.
  intros Hs.
  assert (∀ db', orders db' = orders db → statuses_assignable db') as Hsame
    by (intros db' Heq id o; rewrite Heq; apply Hs).
  destruct req; simpl.
  - apply Hsame, (cart_request_keeps_orders uid (GetCart uid)). by left.
  - apply Hsame, (cart_request_keeps_orders uid (CartAdd uid bookId quantity)).
    right. constructor.
  - apply Hsame, (cart_request_keeps_orders uid (CartUpdate uid itemId quantity)).
    right. constructor.
  - apply Hsame, (cart_request_keeps_orders uid (CartRemove uid itemId)).
    right. constructor.
  - apply Hsame, (cart_request_keeps_orders uid (CartClear uid)).
    right. constructor.
  - apply Hsame. rewrite get_order_eq. destruct (orders db !! id); [|done].
    by destruct (N.eqb _ _).
  - rewrite post_orders_eq. destruct (carts db !! uid) as [c|]; [|done].
    destruct (_ =? _)%nat; [done|].
    destruct (mapExn _ _) as [e|orderItems]; [done|]. cbv zeta.
    destruct (validateOrder _); [|done]. intros id o. simpl.
    rewrite lookup_insert. case_decide; [by intros [= <-] | apply Hs].
  - rewrite put_order_status_eq. destruct status as [s|]; [|done].
    destruct (includes assignableStatuses s) eqn:Es; [|done]. simpl.
    destruct (orders db !! id) as [o|]; [|done].
    destruct (validateOrder _); [|done]. intros id' o'. simpl.
    rewrite lookup_insert. case_decide; [by intros [= <-] | apply Hs].
  - apply Hsame. apply post_books_frame.
  - apply Hsame. apply put_book_frame.
  - apply Hsame. apply delete_book_frame.
Qed.

(** X29.  No order is ever cancelled through the routes: although the
    schema lists "cancelled" as a status, starting from a store whose
    orders all have a status among pending, processing, shipped,
    delivered, the empty store for instance, every stored order has one
    of these four after any sequence of cart, order and catalogue
    requests. *)
Theorem never_cancelled reqs db id o :
  statuses_assignable db →
  orders (serve reqs db) !! id = Some o →
  Order.status o ∈ ["pending"; "processing"; "shipped"; "delivered"]
  ∧ Order.status o ≠ "cancelled".
Proof.
  intros Hs Ho.
  assert (statuses_assignable (serve reqs db)) as Hs'.
  { clear Ho. unfold serve. revert db Hs.
    induction reqs as [|req reqs IH]; intros db Hs; simpl; [done|].
    apply IH. by apply handle_statuses. }
  specialize (Hs' id o Ho). split.
  - by apply includes_elem_of.
  - intros Heq. rewrite Heq in Hs'. discriminate Hs'.
Qed.

Lemma never_cancelled_witness :
  ∃ o, orders (serve [PlaceOrder 1 (Some demoAddress) (Some "paypal");
                      OrderStatus 0 (Some "cancelled");
                      OrderStatus 0 (Some "shipped")] demoDB) !! 0%N
       = Some o
       ∧ Order.status o ∈ ["pending"; "processing"; "shipped"; "delivered"]
       ∧ Order.status o ≠ "cancelled".
Proof.
  destruct (orders (serve [PlaceOrder 1 (Some demoAddress) (Some "paypal");
                           OrderStatus 0 (Some "cancelled");
                           OrderStatus 0 (Some "shipped")] demoDB) !! 0%N)
    as [o|] eqn:E; [|vm_compute in E; discriminate].
  exists o. split; [done|].
  apply (never_cancelled [PlaceOrder 1 (Some demoAddress) (Some "paypal");
                          OrderStatus 0 (Some "cancelled");
                          OrderStatus 0 (Some "shipped")] demoDB 0%N o);
    [|exact E].
  intros id o' H.
  assert (orders demoDB = ∅) as Hempty by (vm_compute; reflexivity).
  rewrite Hempty, lookup_empty in H. discriminate H.
Defined.
